(** * SCD30 I2C driver: a shallow embedding and its verified properties

    The driver (class [SCD30]) talks to a Sensirion SCD30 CO2 / humidity /
    temperature sensor through the Arduino [Wire] object.  The embedding
    keeps the shape of the C++ code:

    - fixed-width integers are [Z] with the wrap-around written out
      ([u8], [u16], [u32]);
    - the [Wire] object is a record holding its transmit and receive
      buffers and the history of completed bus transactions; the sensor at
      the far end of the bus is a [Device], an arbitrary function of that
      history;
    - member functions are computations in a small state monad over the
      pair of the [Wire] object and the [SCD30] object;
    - a [float] member is kept as its 32-bit object representation, read
      through the IEEE-754 binary32 view [b32_of_bits]. *)

From Stdlib Require Import ZArith List Bool Lia PreOmega.
From Stdlib Require Import Floats.SpecFloat.
Import ListNotations.

Local Open Scope Z_scope.

(** ** Fixed-width unsigned integers *)

Definition u8 (n : Z) : Z := n mod 2 ^ 8.
Definition u16 (n : Z) : Z := n mod 2 ^ 16.
Definition u32 (n : Z) : Z := n mod 2 ^ 32.

Definition is_u8 (n : Z) : Prop := 0 <= n < 2 ^ 8.
Definition is_u16 (n : Z) : Prop := 0 <= n < 2 ^ 16.
Definition is_u32 (n : Z) : Prop := 0 <= n < 2 ^ 32.

(** ** Command codes (SCD30_I2C_lib.h) *)

Definition SCD30_I2C_ADDRESS : Z := 0x61.

Definition SCD30_START_CONTINUOUS_MEASUREMENT : Z := 0x0010.
Definition SCD30_STOP_CONTINUOUS_MEASUREMENT : Z := 0x0104.
Definition SCD30_SET_MEASUREMENT_INTERVAL : Z := 0x4600.
Definition SCD30_GET_READY_STATUS : Z := 0x0202.
Definition SCD30_READ_MEASUREMENT : Z := 0x0300.
Definition SCD30_SET_AUTOMATIC_SELFCALIBRATION : Z := 0x5306.
Definition SCD30_SET_FORCED_RECALIBRATION : Z := 0x5204.
Definition SCD30_SET_TEMPERATURE_OFFSET : Z := 0x5403.
Definition SCD30_SET_ALTITUDE_COMPENSATION : Z := 0x5102.
Definition SCD30_READ_FIRMWARE_VERSION : Z := 0xD100.
Definition SCD30_SOFT_RESET : Z := 0xD304.

(** ** The checksum: [SCD30::computeCRC8] *)

Module CRC.

Definition generator : Z := 0x0031.

(** One turn of the inner [for]: test the top bit, then shift, and fold
    the generator in when the bit was set. *)
Definition crc_shift (crc : Z) : Z :=
  if negb (Z.land crc 0x80 =? 0)
  then u8 (Z.lxor (Z.shiftl crc 1) generator)
  else u8 (Z.shiftl crc 1).

(** The inner [for (i = 0; i < 8; i++)], with [i] turns left to run. *)
Fixpoint crc_bits (i : nat) (crc : Z) : Z :=
  match i with
  | O => crc
  | S i' => crc_bits i' (crc_shift crc)
  end.

(** The outer [for (x ...; x < len; x++)], with [n] turns left to run.
    Reading [data[x]] past the end of the array is undefined in the
    source; the model reads 0 there and no theorem below relies on it. *)
Fixpoint crc_bytes (data : list Z) (x n : nat) (crc : Z) : Z :=
  match n with
  | O => crc
  | S n' =>
      crc_bytes data (S x) n' (crc_bits 8 (u8 (Z.lxor crc (nth x data 0))))
  end.

Definition computeCRC8 (data : list Z) (len : Z) : Z :=
  crc_bytes data 0 (Z.to_nat len) 0x00FF.

End CRC.
Export CRC.

(** ** The checksum as the specification words it

    A second definition, written from the description of the checksum and
    not from the code: an 8-bit shift register held as a list of bits, most
    significant first. *)

Module CRCSpec.

Definition bits_of_byte (n : Z) : list bool :=
  map (Z.testbit n) [7; 6; 5; 4; 3; 2; 1; 0].

Definition value_of_bits (r : list bool) : Z :=
  fold_left (fun acc (b : bool) => 2 * acc + (if b then 1 else 0)) r 0.

Fixpoint xor_bits (a b : list bool) : list bool :=
  match a, b with
  | x :: a', y :: b' => xorb x y :: xor_bits a' b'
  | _, _ => []
  end.

Definition top_bit (r : list bool) : bool := hd false r.

Definition shift_left (r : list bool) : list bool := tl r ++ [false].

(** Generator 0x31 and initial register 0xFF. *)
Definition polynomial : list bool := bits_of_byte 0x31.
Definition initial : list bool := bits_of_byte 0xFF.

(** One bit time: the register is shifted, and the polynomial is folded in
    when the top bit was set before the shift. *)
Definition clock (r : list bool) : list bool :=
  if top_bit r then xor_bits (shift_left r) polynomial else shift_left r.

(** One message byte: XOR-in, then eight bit times. *)
Definition absorb_byte (r : list bool) (d : Z) : list bool :=
  Nat.iter 8 clock (xor_bits r (bits_of_byte d)).

Definition crc8_reference (data : list Z) : Z :=
  value_of_bits (fold_left absorb_byte data initial).

End CRCSpec.

(** ** IEEE-754 values

    [float] is binary32 on every Arduino target; [double] is binary32 on
    the 8-bit AVR boards and binary64 on the 32-bit ones, so the width of
    [double] is a parameter of the driver.  Values are [spec_float]s and the
    arithmetic is the correctly rounded (to nearest, ties to even) one of
    the standard library. *)

Module IEEE.

Record format : Type := mkFormat { prec : Z; emax : Z }.

Definition binary32 : format := mkFormat 24 128.
Definition binary64 : format := mkFormat 53 1024.

(** The value held by the 32-bit object representation [x]: sign in bit
    31, biased exponent in bits 30..23, fraction in bits 22..0. *)
Definition b32_of_bits (x : Z) : spec_float :=
  let s := Z.testbit x 31 in
  let e := Z.land (Z.shiftr x 23) 0xFF in
  let m := Z.land x 0x7FFFFF in
  if e =? 0 then
    match m with
    | Zpos p => S754_finite s p (-149)
    | _ => S754_zero s
    end
  else if e =? 0xFF then
    match m with
    | Z0 => S754_infinity s
    | _ => S754_nan
    end
  else
    match m + 2 ^ 23 with
    | Zpos p => S754_finite s p (e - 150)
    | _ => S754_nan
    end.

Definition sign_bit (s : bool) : Z := if s then 2 ^ 31 else 0.

(** The object representation of a binary32 value; a NaN is given the
    quiet pattern 0x7FC00000 (its payload is not part of a [spec_float]). *)
Definition bits_of_b32 (x : spec_float) : Z :=
  match x with
  | S754_zero s => sign_bit s
  | S754_infinity s => sign_bit s + 0x7F800000
  | S754_nan => 0x7FC00000
  | S754_finite s m e => sign_bit s + (e + 149) * 2 ^ 23 + Zpos m
  end.

(** Conversion of a value to the format [f] (exact when widening). *)
Definition convert (f : format) (x : spec_float) : spec_float :=
  match x with
  | S754_finite s m e => binary_round (prec f) (emax f) s m e
  | _ => x
  end.

(** An integer constant converted to the format [f]. *)
Definition of_Z (f : format) (n : Z) : spec_float :=
  binary_normalize (prec f) (emax f) n 0 false.

(** The decimal literal [n / 10 ^ k] rounded to the format [f]. *)
Definition lit (f : format) (n : Z) (k : Z) : spec_float :=
  SFdiv (prec f) (emax f) (of_Z f n) (of_Z f (10 ^ k)).

Definition mul (f : format) : spec_float -> spec_float -> spec_float :=
  SFmul (prec f) (emax f).

Definition add (f : format) : spec_float -> spec_float -> spec_float :=
  SFadd (prec f) (emax f).

(** The integer part of a value, rounded towards zero; nothing for an
    infinity or a NaN. *)
Definition trunc (x : spec_float) : option Z :=
  match x with
  | S754_zero _ => Some 0
  | S754_finite s m e =>
      Some (cond_Zopp s
              (match e with
               | Z0 => Zpos m
               | Zpos _ => Zpos m * 2 ^ e
               | Zneg _ => Zpos m / 2 ^ (- e)
               end))
  | _ => None
  end.

(** Conversion of a floating value to [uint16_t]: the value is truncated;
    C++ leaves the conversion undefined when the truncated value does not
    fit, which is [None] here. *)
Definition to_uint16 (x : spec_float) : option Z :=
  match trunc x with
  | Some n => if (0 <=? n) && (n <? 2 ^ 16) then Some n else None
  | None => None
  end.

End IEEE.

(** ** The [Wire] collaborator

    [Wire] is the two-wire bus object of the Arduino core, outside the
    driver's sources.  The model keeps what the driver relies on: a
    transmission is addressed, filled byte by byte and ended with a status
    (0 when acknowledged); a request replaces the receive buffer by what the
    device sent, at most the requested number of bytes; [available] counts
    the unread bytes and [read] hands them out in order, -1 when none is
    left. *)

(** Status codes of [Wire.endTransmission()]. *)
Inductive twi_status : Type :=
| TWI_OK
| TWI_DATA_TOO_LONG
| TWI_NACK_ADDRESS
| TWI_NACK_DATA
| TWI_OTHER_ERROR
| TWI_TIMEOUT.

Definition status_code (s : twi_status) : Z :=
  match s with
  | TWI_OK => 0
  | TWI_DATA_TOO_LONG => 1
  | TWI_NACK_ADDRESS => 2
  | TWI_NACK_DATA => 3
  | TWI_OTHER_ERROR => 4
  | TWI_TIMEOUT => 5
  end.

(** What has happened on the bus: one event per completed call of
    [Wire.begin], [Wire.endTransmission] and [Wire.requestFrom]. *)
Inductive bus_event : Type :=
| BusBegin
| BusWrite (address : Z) (payload : list Z) (status : twi_status)
| BusRead (address : Z) (quantity : Z) (received : list Z).

(** The far end of the bus.  Both answers may depend on everything that
    happened before, so a device can answer every transaction differently. *)
Record Device : Type := mkDevice {
  dev_ack : list bus_event -> Z -> list Z -> twi_status;
  dev_reply : list bus_event -> Z -> Z -> list Z
}.

Definition BUFFER_LENGTH : Z := 32.

Record TwoWire : Type := mkTwoWire {
  txAddress : Z;
  txBuffer : list Z;
  rxBuffer : list Z;          (* bytes received and not yet read *)
  history : list bus_event    (* oldest event first *)
}.

(** ** The driver object and the state monad *)

(** The private members of [class SCD30]; each [float] is held as its
    32-bit object representation. *)
Record SCD30 : Type := mkSCD30 {
  co2 : Z;
  temperature : Z;
  humidity : Z
}.

(** [float co2 = 0; float temperature = 0; float humidity = 0;] *)
Definition SCD30_new : SCD30 := mkSCD30 0 0 0.

Record World : Type := mkWorld {
  wire : TwoWire;
  this : SCD30
}.

Definition M (A : Type) : Type := World -> A * World.

Definition ret {A : Type} (a : A) : M A := fun w => (a, w).

Definition bind {A B : Type} (c : M A) (k : A -> M B) : M B :=
  fun w => let (a, w') := c w in k a w'.

Declare Scope monad_scope.
Delimit Scope monad_scope with monad.
Notation "x <- c ;; k" := (bind c (fun x => k))
  (at level 61, c at next level, right associativity) : monad_scope.
Notation "c ;; k" := (bind c (fun _ => k))
  (at level 61, right associativity) : monad_scope.
Local Open Scope monad_scope.

Definition result {A : Type} (r : A * World) : A := fst r.
Definition after {A : Type} (r : A * World) : World := snd r.

Definition get_this : M SCD30 := fun w => (this w, w).
Definition set_co2 (v : Z) : M unit :=
  fun w => (tt, mkWorld (wire w) (mkSCD30 v (temperature (this w)) (humidity (this w)))).
Definition set_temperature (v : Z) : M unit :=
  fun w => (tt, mkWorld (wire w) (mkSCD30 (co2 (this w)) v (humidity (this w)))).
Definition set_humidity (v : Z) : M unit :=
  fun w => (tt, mkWorld (wire w) (mkSCD30 (co2 (this w)) (temperature (this w)) v)).
Definition on_wire {A : Type} (f : TwoWire -> A * TwoWire) : M A :=
  fun w => let (a, tw) := f (wire w) in (a, mkWorld tw (this w)).

Section Driver.

(** The sensor on the bus, and the format of [double] on the board. *)
Variable dev : Device.
Variable double : IEEE.format.

(** *** [Wire] member functions *)

Definition Wire_begin : M unit :=
  on_wire (fun tw => (tt, mkTwoWire (txAddress tw) [] [] (history tw ++ [BusBegin]))).

Definition Wire_beginTransmission (address : Z) : M unit :=
  on_wire (fun tw => (tt, mkTwoWire address [] (rxBuffer tw) (history tw))).

(** [Wire.write(n)]: the argument is narrowed to [uint8_t]; a full
    transmit buffer drops the byte. *)
Definition Wire_write (n : Z) : M unit :=
  on_wire (fun tw =>
    if Z.of_nat (length (txBuffer tw)) <? BUFFER_LENGTH
    then (tt, mkTwoWire (txAddress tw) (txBuffer tw ++ [u8 n]) (rxBuffer tw) (history tw))
    else (tt, tw)).

Definition Wire_endTransmission : M Z :=
  on_wire (fun tw =>
    let st := dev_ack dev (history tw) (txAddress tw) (txBuffer tw) in
    (status_code st,
     mkTwoWire (txAddress tw) [] (rxBuffer tw)
               (history tw ++ [BusWrite (txAddress tw) (txBuffer tw) st]))).

(** [Wire.requestFrom(address, quantity)]: the receive buffer is replaced
    by what the device sent, at most [quantity] bytes. *)
Definition Wire_requestFrom (address quantity : Z) : M Z :=
  on_wire (fun tw =>
    let q := Z.min quantity BUFFER_LENGTH in
    let got := firstn (Z.to_nat q) (dev_reply dev (history tw) address q) in
    (Z.of_nat (length got),
     mkTwoWire (txAddress tw) (txBuffer tw) got
               (history tw ++ [BusRead address q got]))).

Definition Wire_available : M Z :=
  on_wire (fun tw => (Z.of_nat (length (rxBuffer tw)), tw)).

(** [Wire.read()]: the next received byte, or -1 when none is left. *)
Definition Wire_read : M Z :=
  on_wire (fun tw =>
    match rxBuffer tw with
    | [] => (-1, tw)
    | b :: rest => (b, mkTwoWire (txAddress tw) (txBuffer tw) rest (history tw))
    end).

(** *** Command transmission *)

(** [boolean SCD30::sendCommand(uint16_t command)] *)
Definition sendCommand0 (command : Z) : M bool :=
  Wire_beginTransmission SCD30_I2C_ADDRESS ;;
  Wire_write (Z.shiftr command 8) ;;
  Wire_write (Z.land command 0x00FF) ;;
  st <- Wire_endTransmission ;;
  if negb (st =? 0) then ret false else ret true.

(** [boolean SCD30::sendCommand(uint16_t command, uint16_t argument)] *)
Definition sendCommand (command argument : Z) : M bool :=
  let data0 := u8 (Z.shiftr argument 8) in
  let data1 := u8 (Z.land argument 0x00FF) in
  let crc := computeCRC8 [data0; data1] 2 in
  Wire_beginTransmission SCD30_I2C_ADDRESS ;;
  Wire_write (Z.shiftr command 8) ;;
  Wire_write (Z.land command 0x00FF) ;;
  Wire_write (Z.shiftr argument 8) ;;
  Wire_write (Z.land argument 0x00FF) ;;
  Wire_write crc ;;
  st <- Wire_endTransmission ;;
  if negb (st =? 0) then ret false else ret true.

(** [uint16_t SCD30::readRegister(uint16_t registerAddress)] *)
Definition readRegister (registerAddress : Z) : M Z :=
  Wire_beginTransmission SCD30_I2C_ADDRESS ;;
  Wire_write (Z.shiftr registerAddress 8) ;;
  Wire_write (Z.land registerAddress 0x00FF) ;;
  st <- Wire_endTransmission ;;
  if negb (st =? 0) then ret 0
  else
    Wire_requestFrom SCD30_I2C_ADDRESS 2 ;;
    n <- Wire_available ;;
    if negb (n =? 0) then
      msb <- Wire_read ;;
      lsb <- Wire_read ;;
      let MSB := u8 msb in
      let LSB := u8 lsb in
      let response := u16 (Z.shiftl MSB 8) in
      let response := Z.lor response LSB in
      ret response
    else ret 0.

(** *** Starting, stopping and polling *)

Definition beginMeasuring (ambientPressureOffset : Z) : M bool :=
  sendCommand SCD30_START_CONTINUOUS_MEASUREMENT ambientPressureOffset.

Definition beginMeasuring0 : M bool := beginMeasuring 0.

Definition stopMeasuring : M bool :=
  sendCommand0 SCD30_STOP_CONTINUOUS_MEASUREMENT.

Definition dataAvailable : M bool :=
  response <- readRegister SCD30_GET_READY_STATUS ;;
  if response =? 1 then ret true else ret false.

(** *** Configuration *)

Definition enableAutomaticSelfCalibration : M unit :=
  sendCommand SCD30_SET_AUTOMATIC_SELFCALIBRATION 1 ;; ret tt.

Definition disableAutomaticSelfCalibration : M unit :=
  sendCommand SCD30_SET_AUTOMATIC_SELFCALIBRATION 0 ;; ret tt.

Definition setForcedRecalibrationValue (concentration : Z) : M unit :=
  if (concentration <? 400) || (concentration >? 2000) then ret tt
  else sendCommand SCD30_SET_FORCED_RECALIBRATION concentration ;; ret tt.

Definition setMeasurementInterval (interval : Z) : M unit :=
  sendCommand SCD30_SET_MEASUREMENT_INTERVAL interval ;; ret tt.

(** [void SCD30::setTemperatureOffset(float tempOffset)].  The product
    [tempOffset * 100] is a [float] (the [int] 100 is converted); storing
    it in [uint16_t tickOffest] truncates it, and C++ leaves the conversion
    undefined when the truncated value does not fit, which is [None]. *)
Definition setTemperatureOffset (tempOffset : spec_float) : M (option unit) :=
  match IEEE.to_uint16
          (IEEE.mul IEEE.binary32 tempOffset (IEEE.of_Z IEEE.binary32 100)) with
  | Some tickOffest =>
      sendCommand SCD30_SET_TEMPERATURE_OFFSET tickOffest ;; ret (Some tt)
  | None => ret None
  end.

Definition setAmbientPressure (ambientPressure : Z) : M unit :=
  let ambientPressure :=
    if (ambientPressure <? 700) || (ambientPressure >? 1200)
    then 0 else ambientPressure in
  sendCommand SCD30_START_CONTINUOUS_MEASUREMENT ambientPressure ;; ret tt.

Definition setAltitudeCompensation (altitude : Z) : M unit :=
  sendCommand SCD30_SET_ALTITUDE_COMPENSATION altitude ;; ret tt.

Definition getMeasurementInterval : M Z :=
  readRegister SCD30_SET_MEASUREMENT_INTERVAL.

Definition getAutomaticSelfCalibration : M bool :=
  ASC <- readRegister SCD30_SET_AUTOMATIC_SELFCALIBRATION ;;
  if ASC =? 1 then ret true else ret false.

Definition getForcedRecalibrationValue : M Z :=
  readRegister SCD30_SET_FORCED_RECALIBRATION.

Definition getTemperatureOffset : M Z :=
  readRegister SCD30_SET_TEMPERATURE_OFFSET.

Definition getAltitudeCompensation : M Z :=
  readRegister SCD30_SET_ALTITUDE_COMPENSATION.

Definition softReset : M bool := sendCommand0 SCD30_SOFT_RESET.

(** [boolean SCD30::begin()] *)
Definition begin : M bool :=
  Wire_begin ;;
  ok <- beginMeasuring0 ;;
  if ok then setMeasurementInterval 2 ;; ret true
  else ret false.

(** *** Reading a measurement *)

(** The three accumulators [tempCO2], [tempTemperature], [tempHumidity]. *)
Record temps : Type := mkTemps {
  tempCO2 : Z;
  tempTemperature : Z;
  tempHumidity : Z
}.

(** [t <<= 8; t |= incoming;] on a [uint32_t]. *)
Definition push_byte (t incoming : Z) : Z :=
  Z.lor (u32 (Z.shiftl t 8)) incoming.

(** The [switch (b)] of the receive loop. *)
Definition absorb (b incoming : Z) (t : temps) : temps :=
  if (b =? 0) || (b =? 1) || (b =? 3) || (b =? 4) then
    mkTemps (push_byte (tempCO2 t) incoming) (tempTemperature t) (tempHumidity t)
  else if (b =? 6) || (b =? 7) || (b =? 9) || (b =? 10) then
    mkTemps (tempCO2 t) (push_byte (tempTemperature t) incoming) (tempHumidity t)
  else if (b =? 12) || (b =? 13) || (b =? 15) || (b =? 16) then
    mkTemps (tempCO2 t) (tempTemperature t) (push_byte (tempHumidity t) incoming)
  else t.

(** [for (uint8_t b = ...; b < 18; b++)], with [n] turns left to run. *)
Fixpoint receive (n : nat) (b : Z) (t : temps) : M temps :=
  match n with
  | O => ret t
  | S n' =>
      r <- Wire_read ;;
      let incoming := u8 r in
      receive n' (b + 1) (absorb b incoming t)
  end.

(** [boolean SCD30::readMeasurement()] *)
Definition readMeasurement : M bool :=
  let t0 := mkTemps 0 0 0 in
  Wire_beginTransmission SCD30_I2C_ADDRESS ;;
  Wire_write (Z.shiftr SCD30_READ_MEASUREMENT 8) ;;
  Wire_write (Z.land SCD30_READ_MEASUREMENT 0x00FF) ;;
  st <- Wire_endTransmission ;;
  if negb (st =? 0) then ret false
  else
    Wire_requestFrom SCD30_I2C_ADDRESS 18 ;;
    n <- Wire_available ;;
    t <- (if negb (n =? 0) then receive 18 0 t0 else ret t0) ;;
    set_co2 (tempCO2 t) ;;                  (* memcpy(&co2, &tempCO2, ...) *)
    set_temperature (tempTemperature t) ;;  (* memcpy(&temperature, ...) *)
    set_humidity (tempHumidity t) ;;        (* memcpy(&humidity, ...) *)
    ret true.

(** *** The lazy accessors *)

Definition getHumidity : M spec_float :=
  ready <- dataAvailable ;;
  (if ready then readMeasurement ;; ret tt else ret tt) ;;
  s <- get_this ;;
  ret (IEEE.b32_of_bits (humidity s)).

Definition getTemperatureC : M spec_float :=
  ready <- dataAvailable ;;
  (if ready then readMeasurement ;; ret tt else ret tt) ;;
  s <- get_this ;;
  ret (IEEE.b32_of_bits (temperature s)).

(** [temperature * 1.8 + 32], computed in [double] and narrowed to the
    [float] return type. *)
Definition fahrenheit (t : spec_float) : spec_float :=
  IEEE.convert IEEE.binary32
    (IEEE.add double
       (IEEE.mul double (IEEE.convert double t) (IEEE.lit double 18 1))
       (IEEE.of_Z double 32)).

(** [temperature + 273.15], likewise. *)
Definition kelvin (t : spec_float) : spec_float :=
  IEEE.convert IEEE.binary32
    (IEEE.add double (IEEE.convert double t) (IEEE.lit double 27315 2)).

Definition getTemperatureF : M spec_float :=
  ready <- dataAvailable ;;
  (if ready then readMeasurement ;; ret tt else ret tt) ;;
  s <- get_this ;;
  ret (fahrenheit (IEEE.b32_of_bits (temperature s))).

Definition getTemperatureK : M spec_float :=
  ready <- dataAvailable ;;
  (if ready then readMeasurement ;; ret tt else ret tt) ;;
  s <- get_this ;;
  ret (kelvin (IEEE.b32_of_bits (temperature s))).

(** The [float] member [co2] is converted to the [uint16_t] return type. *)
Definition getCO2 : M (option Z) :=
  ready <- dataAvailable ;;
  (if ready then readMeasurement ;; ret tt else ret tt) ;;
  s <- get_this ;;
  ret (IEEE.to_uint16 (IEEE.b32_of_bits (co2 s))).

End Driver.

(** ** Observing a run

    The vocabulary of the statements below: what a computation added to
    the bus history, the frames the driver sends, and the worlds the [Wire]
    calls lead to. *)

(** The bus events a computation adds to the history of [w]. *)
Definition issued {A : Type} (c : M A) (w : World) : list bus_event :=
  skipn (length (history (wire w))) (history (wire (after (c w)))).

Definition acked (st : twi_status) : bool :=
  match st with TWI_OK => true | _ => false end.

(** The bytes of a command with its argument and the argument's checksum. *)
Definition command_frame (command argument : Z) : list Z :=
  [u8 (Z.shiftr command 8); u8 (Z.land command 0x00FF);
   u8 (Z.shiftr argument 8); u8 (Z.land argument 0x00FF);
   u8 (computeCRC8 [u8 (Z.shiftr argument 8); u8 (Z.land argument 0x00FF)] 2)].

Definition address_frame (command : Z) : list Z :=
  [u8 (Z.shiftr command 8); u8 (Z.land command 0x00FF)].

(** Four bytes in arrival order as one 32-bit word, first byte on top. *)
Definition be32 (a b c d : Z) : Z := a * 2 ^ 24 + b * 2 ^ 16 + c * 2 ^ 8 + d.

(** A bus event that belongs to a measurement read: the read-measurement
    command or the request for the 18-byte frame. *)
Definition is_measurement_read (e : bus_event) : bool :=
  match e with
  | BusBegin => false
  | BusWrite _ payload _ =>
      match payload with
      | [a; b] => (a =? 0x03) && (b =? 0x00)
      | _ => false
      end
  | BusRead _ quantity _ => quantity =? 18
  end.

(** The value [readRegister] builds from what it received. *)
Definition register_value (got : list Z) : Z :=
  match got with
  | [] => 0
  | [msb] => Z.lor (u16 (Z.shiftl (u8 msb) 8)) (u8 (-1))
  | msb :: lsb :: _ => Z.lor (u16 (Z.shiftl (u8 msb) 8)) (u8 lsb)
  end.

(** The receive loop as a function of the unread bytes: [Wire.read()]
    hands out -1 once they are used up. *)
Fixpoint decode_from (n : nat) (b : Z) (rx : list Z) (t : temps) : temps * list Z :=
  match n with
  | O => (t, rx)
  | S n' =>
      match rx with
      | [] => decode_from n' (b + 1) [] (absorb b (u8 (-1)) t)
      | x :: rest => decode_from n' (b + 1) rest (absorb b (u8 x) t)
      end
  end.

Definition with_rx (w : World) (rx : list Z) : World :=
  mkWorld (mkTwoWire (txAddress (wire w)) (txBuffer (wire w)) rx (history (wire w)))
    (this w).

(** The accumulators [readMeasurement] ends with, and the bytes it leaves
    unread, from what it received. *)
Definition measurement_of (got : list Z) : temps * list Z :=
  match got with
  | [] => (mkTemps 0 0 0, [])
  | _ => decode_from 18 0 got (mkTemps 0 0 0)
  end.

(** The world after [Wire.begin()]. *)
Definition begun (w : World) : World :=
  mkWorld (mkTwoWire (txAddress (wire w)) [] [] (history (wire w) ++ [BusBegin]))
    (this w).

(** *** Some concrete devices and worlds *)

(** A world just after reset: empty buffers, nothing on the bus yet, the
    cache at its initial zeros. *)
Definition power_on : World := mkWorld (mkTwoWire 0 [] [] []) SCD30_new.

(** No device on the bus: every address is left unacknowledged. *)
Definition absent_device : Device :=
  mkDevice (fun _ _ _ => TWI_NACK_ADDRESS) (fun _ _ _ => []).

(** A device that acknowledges every write and never sends a byte. *)
Definition mute_device : Device :=
  mkDevice (fun _ _ _ => TWI_OK) (fun _ _ _ => []).

(** A device that acknowledges every write, answers a two-byte request
    with the register value [reg] and a longer one with [frame]. *)
Definition scripted_device (reg : Z) (frame : list Z) : Device :=
  mkDevice (fun _ _ _ => TWI_OK)
    (fun _ _ quantity =>
       if quantity =? 2 then [reg / 256; reg mod 256] else frame).

(** A cache holding 450 ppm, 20 degrees and 50 %RH. *)
Definition warm_cache : SCD30 := mkSCD30 0x43E10000 0x41A00000 0x42480000.

(** A world with that cache and nothing on the bus yet. *)
Definition warm_world : World := mkWorld (mkTwoWire 0 [] [] []) warm_cache.

(** A frame carrying 450.75 ppm, 20 degrees, 50 %RH (the bytes at the
    checksum offsets are not looked at). *)
Definition frame_450_75 : list Z :=
  [0x43; 0xE1; 0x31; 0x60; 0x00; 0xB4;
   0x41; 0xA0; 0x2A; 0x00; 0x00; 0x81;
   0x42; 0x48; 0xB7; 0x00; 0x00; 0x81].

Definition all_bytes : list Z := map Z.of_nat (seq 0 256).

Definition bits_eqb (a b : list bool) : bool :=
  (length a =? length b)%nat && forallb (fun p => Bool.eqb (fst p) (snd p)) (combine a b).

Section Observations.

Variable dev : Device.

(** The world after a write transaction that carried [payload]. *)
Definition written (w : World) (payload : list Z) : World :=
  mkWorld
    (mkTwoWire SCD30_I2C_ADDRESS [] (rxBuffer (wire w))
       (history (wire w)
        ++ [BusWrite SCD30_I2C_ADDRESS payload
              (dev_ack dev (history (wire w)) SCD30_I2C_ADDRESS payload)]))
    (this w).

(** What the device sends back when [quantity] bytes are requested in [w]. *)
Definition reply_in (w : World) (quantity : Z) : list Z :=
  firstn (Z.to_nat quantity)
    (dev_reply dev (history (wire w)) SCD30_I2C_ADDRESS quantity).

(** The world after that request, with [left] still unread. *)
Definition requested (w : World) (quantity : Z) (left : list Z) : World :=
  mkWorld
    (mkTwoWire (txAddress (wire w)) (txBuffer (wire w)) left
       (history (wire w)
        ++ [BusRead SCD30_I2C_ADDRESS quantity (reply_in w quantity)]))
    (this w).

(** The world in which an accessor reads the cache: after the poll, and
    after the measurement read when the poll said ready. *)
Definition settled (w : World) : World :=
  if result (dataAvailable dev w)
  then after (readMeasurement dev (after (dataAvailable dev w)))
  else after (dataAvailable dev w).

End Observations.

(** ** Further vocabulary: checksums, frames and devices *)

(** One turn of the outer loop of [computeCRC8]: XOR-in, then the eight
    turns of the inner loop. *)
Definition crc_step (crc d : Z) : Z := crc_bits 8 (u8 (Z.lxor crc d)).

(** The number of bits set among the low eight of [n]. *)
Definition popcount8 (n : Z) : Z :=
  fold_right (fun i acc => Z.b2z (Z.testbit n i) + acc) 0 [0; 1; 2; 3; 4; 5; 6; 7].

(** What a change of the two argument bytes by [e1], [e2] does to their
    checksum. *)
Definition crc_delta (e1 e2 : Z) : Z :=
  crc_bits 8 (Z.lxor (crc_bits 8 e1) e2).

(** A bus event of the shape this driver produces: addressed to the
    sensor; a write of two command bytes, or of five bytes whose last is the
    checksum of the two before it, every byte within 0..255; a read of 2 or
    of 18 bytes that received no more than it asked for. *)
Definition well_formed_event (e : bus_event) : bool :=
  match e with
  | BusBegin => true
  | BusWrite address payload _ =>
      (address =? SCD30_I2C_ADDRESS)
      && forallb (fun b => (0 <=? b) && (b <? 256)) payload
      && match payload with
         | [_; _] => true
         | [_; _; x; y; c] => computeCRC8 [x; y] 2 =? c
         | _ => false
         end
  | BusRead address quantity received =>
      (address =? SCD30_I2C_ADDRESS)
      && ((quantity =? 2) || (quantity =? 18))
      && (Z.of_nat (length received) <=? quantity)
  end.

(** A computation that only appends well-formed events to the history. *)
Definition disciplined {A : Type} (c : M A) : Prop :=
  forall w : World,
    exists l : list bus_event,
      history (wire (after (c w))) = history (wire w) ++ l
      /\ forallb well_formed_event l = true.


(** The device answers a read of register [command], made right after
    [argument] was written to it in [w], with the two bytes of [argument]. *)
Definition echoes (dev : Device) (w : World) (command argument : Z) : Prop :=
  let h1 :=
    history (wire w)
    ++ [BusWrite SCD30_I2C_ADDRESS (command_frame command argument)
          (dev_ack dev (history (wire w)) SCD30_I2C_ADDRESS
             (command_frame command argument))] in
  dev_ack dev h1 SCD30_I2C_ADDRESS (address_frame command) = TWI_OK
  /\ firstn 2
       (dev_reply dev
          (h1 ++ [BusWrite SCD30_I2C_ADDRESS (address_frame command) TWI_OK])
          SCD30_I2C_ADDRESS 2)
     = [argument / 256; argument mod 256].

(** The bytes a register holds after the history [h]: the argument of the
    latest five-byte write to it, [held] when there was none. *)
Fixpoint register_bytes (hi lo : Z) (h : list bus_event) (held : list Z) : list Z :=
  match h with
  | [] => held
  | BusWrite _ [a; b; x; y; _] _ :: rest =>
      register_bytes hi lo rest (if (a =? hi) && (b =? lo) then [x; y] else held)
  | _ :: rest => register_bytes hi lo rest held
  end.

(** A sensor with registers: it acknowledges every write and answers a
    read with the bytes of the register that the latest two-byte write
    named. *)
Definition register_device : Device :=
  mkDevice (fun _ _ _ => TWI_OK)
    (fun h _ _ =>
       match last h BusBegin with
       | BusWrite _ [hi; lo] _ => register_bytes hi lo h [0; 0]
       | _ => []
       end).

(** A device that acknowledges every write and answers every request
    with the single byte [b]. *)
Definition terse_device (b : Z) : Device :=
  mkDevice (fun _ _ _ => TWI_OK) (fun _ _ _ => [b]).

(** The cache a full 18-byte frame leaves. *)
Definition frame_cache (f : list Z) : SCD30 :=
  mkSCD30
    (be32 (nth 0 f 0) (nth 1 f 0) (nth 3 f 0) (nth 4 f 0))
    (be32 (nth 6 f 0) (nth 7 f 0) (nth 9 f 0) (nth 10 f 0))
    (be32 (nth 12 f 0) (nth 13 f 0) (nth 15 f 0) (nth 16 f 0)).

(** One field of a measurement frame: the four bytes of the word [x], most
    significant first, with a checksum byte after each pair. *)
Definition field_bytes (x k1 k2 : Z) : list Z :=
  [x / 2 ^ 24; (x / 2 ^ 16) mod 256; k1; (x / 2 ^ 8) mod 256; x mod 256; k2].

(** The device reports new data to the poll made in [w] and then answers
    the measurement read with [frame]. *)
Definition serves (dev : Device) (w : World) (frame : list Z) : Prop :=
  let h := history (wire w) in
  let h2 :=
    h ++ [BusWrite SCD30_I2C_ADDRESS [0x02; 0x02] TWI_OK;
          BusRead SCD30_I2C_ADDRESS 2 [0x00; 0x01]] in
  dev_ack dev h SCD30_I2C_ADDRESS [0x02; 0x02] = TWI_OK
  /\ firstn 2
       (dev_reply dev (h ++ [BusWrite SCD30_I2C_ADDRESS [0x02; 0x02] TWI_OK])
          SCD30_I2C_ADDRESS 2) = [0x00; 0x01]
  /\ dev_ack dev h2 SCD30_I2C_ADDRESS [0x03; 0x00] = TWI_OK
  /\ firstn 18
       (dev_reply dev (h2 ++ [BusWrite SCD30_I2C_ADDRESS [0x03; 0x00] TWI_OK])
          SCD30_I2C_ADDRESS 18) = frame.

Arguments u8 : simpl never.
Arguments u16 : simpl never.
Arguments u32 : simpl never.
Arguments computeCRC8 : simpl never.
Arguments Z.shiftr : simpl never.
Arguments Z.shiftl : simpl never.
Arguments Z.land : simpl never.
Arguments Z.lor : simpl never.

(** ** What a computation puts on the bus *)

Lemma status_code_acked (st : twi_status) :
  negb (status_code st =? 0) = negb (acked st).
Proof. destruct st; reflexivity. Qed.

Lemma skipn_app_exact {A : Type} (l k : list A) : skipn (length l) (l ++ k) = k.
Proof. induction l; simpl; auto. Qed.

Section Runs.

Variable dev : Device.

(** A two-byte write transaction followed by [k]. *)
Lemma transmit2_run {A : Type} (x y : Z) (k : Z -> M A) (w : World) :
  (Wire_beginTransmission SCD30_I2C_ADDRESS ;;
   Wire_write x ;;
   Wire_write y ;;
   st <- Wire_endTransmission dev ;;
   k st) w =
  k (status_code (dev_ack dev (history (wire w)) SCD30_I2C_ADDRESS [u8 x; u8 y]))
    (written dev w [u8 x; u8 y]).
Proof. reflexivity. Qed.

(** A read request followed by the test of [Wire.available()] and [k]. *)
Lemma request_run {A : Type} (q : Z) (k : Z -> M A) (w : World) :
  q <= BUFFER_LENGTH ->
  (Wire_requestFrom dev SCD30_I2C_ADDRESS q ;;
   n <- Wire_available ;;
   k n) w =
  k (Z.of_nat (length (reply_in dev w q))) (requested dev w q (reply_in dev w q)).
Proof.
  intros Hq. unfold bind, Wire_requestFrom, Wire_available, on_wire, requested, reply_in.
  rewrite Z.min_l by exact Hq. reflexivity.
Qed.

Lemma sendCommand_run (command argument : Z) (w : World) :
  sendCommand dev command argument w =
  (acked (dev_ack dev (history (wire w)) SCD30_I2C_ADDRESS
            (command_frame command argument)),
   written dev w (command_frame command argument)).
Proof.
  unfold sendCommand, written, command_frame, bind, Wire_beginTransmission,
    Wire_write, Wire_endTransmission, on_wire, ret. simpl.
  rewrite status_code_acked.
  destruct (dev_ack _ _ _ _); reflexivity.
Qed.

Lemma sendCommand0_run (command : Z) (w : World) :
  sendCommand0 dev command w =
  (acked (dev_ack dev (history (wire w)) SCD30_I2C_ADDRESS (address_frame command)),
   written dev w (address_frame command)).
Proof.
  unfold sendCommand0, written, address_frame, bind, Wire_beginTransmission,
    Wire_write, Wire_endTransmission, on_wire, ret. simpl.
  rewrite status_code_acked.
  destruct (dev_ack _ _ _ _); reflexivity.
Qed.

Lemma readRegister_run (a : Z) (w : World) :
  readRegister dev a w =
  let w1 := written dev w (address_frame a) in
  if acked (dev_ack dev (history (wire w)) SCD30_I2C_ADDRESS (address_frame a))
  then (register_value (reply_in dev w1 2), requested dev w1 2 (skipn 2 (reply_in dev w1 2)))
  else (0, w1).
Proof.
  unfold readRegister, written, address_frame, bind, Wire_beginTransmission,
    Wire_write, Wire_endTransmission, Wire_requestFrom, Wire_available,
    Wire_read, on_wire, ret, requested, reply_in.
  change (Z.min 2 BUFFER_LENGTH) with 2. simpl.
  rewrite status_code_acked.
  destruct (dev_ack _ _ _ _); simpl; try reflexivity.
  destruct (dev_reply _ _ _ _) as [|msb [|lsb rest]]; reflexivity.
Qed.

Lemma with_rx_same (w : World) : with_rx w (rxBuffer (wire w)) = w.
Proof. destruct w as [[a t r h] s]; reflexivity. Qed.

Lemma receive_run (n : nat) : forall (b : Z) (t : temps) (w : World),
  receive n b t w =
  (fst (decode_from n b (rxBuffer (wire w)) t),
   with_rx w (snd (decode_from n b (rxBuffer (wire w)) t))).
Proof.
  induction n as [|n IH]; intros b t w.
  - simpl. unfold ret. now rewrite with_rx_same.
  - simpl. unfold bind, Wire_read, on_wire.
    destruct (rxBuffer (wire w)) as [|x rest] eqn:E.
    + rewrite IH. simpl. rewrite E. destruct w as [[a tx r h] s]; reflexivity.
    + rewrite IH. reflexivity.
Qed.

Lemma readMeasurement_run (w : World) :
  readMeasurement dev w =
  let w1 := written dev w (address_frame SCD30_READ_MEASUREMENT) in
  if acked (dev_ack dev (history (wire w)) SCD30_I2C_ADDRESS
              (address_frame SCD30_READ_MEASUREMENT))
  then
    let (t, left) := measurement_of (reply_in dev w1 18) in
    (true,
     mkWorld (wire (requested dev w1 18 left))
       (mkSCD30 (tempCO2 t) (tempTemperature t) (tempHumidity t)))
  else (false, w1).
Proof.
  unfold readMeasurement. rewrite transmit2_run.
  fold (address_frame SCD30_READ_MEASUREMENT).
  rewrite status_code_acked.
  destruct (dev_ack _ _ _ _); cbn [acked negb]; try reflexivity.
  cbv zeta. rewrite request_run by (unfold BUFFER_LENGTH; lia).
  unfold measurement_of.
  destruct (reply_in dev _ 18) as [|x got] eqn:E.
  - reflexivity.
  - cbn [length Z.of_nat negb].
    change (Z.pos (Pos.of_succ_nat (length got)) =? 0) with false. cbn [negb].
    unfold bind at 1. rewrite receive_run. cbn [wire rxBuffer fst snd requested].
    destruct (decode_from 18 0 (x :: got) _) as [t left].
    reflexivity.
Qed.

End Runs.

(** ** The checksum refines its specification *)

Section Checksum.

Import CRCSpec.

Lemma in_all_bytes (c : Z) : is_u8 c -> In c all_bytes.
Proof.
  intros [H0 H1]. unfold all_bytes. apply in_map_iff.
  exists (Z.to_nat c). split; [lia|].
  apply in_seq. change (2 ^ 8) with 256 in H1. lia.
Qed.

Lemma u8_range (n : Z) : is_u8 (u8 n).
Proof. unfold is_u8, u8. apply Z.mod_pos_bound. reflexivity. Qed.

Lemma u8_small (n : Z) : is_u8 n -> u8 n = n.
Proof. intros H. unfold u8. apply Z.mod_small. exact H. Qed.

Lemma bits_eqb_eq (a b : list bool) : bits_eqb a b = true -> a = b.
Proof.
  unfold bits_eqb. rewrite andb_true_iff, Nat.eqb_eq. intros [Hl Hf].
  revert b Hl Hf. induction a as [|x a IH]; intros [|y b] Hl Hf; simpl in *;
    try discriminate; auto.
  apply andb_true_iff in Hf. destruct Hf as [Hxy Hf].
  apply Bool.eqb_prop in Hxy. f_equal; auto.
Qed.

(** The shift of the code is the bit time of the specification. *)
Lemma crc_shift_clock (c : Z) :
  is_u8 c -> bits_of_byte (crc_shift c) = clock (bits_of_byte c) /\ is_u8 (crc_shift c).
Proof.
  intros H. apply in_all_bytes in H. rename H into Hc.
  assert (forallb (fun c => bits_eqb (bits_of_byte (crc_shift c)) (clock (bits_of_byte c))
                            && (0 <=? crc_shift c) && (crc_shift c <? 256)) all_bytes = true)
    as Hall by (vm_compute; reflexivity).
  rewrite forallb_forall in Hall. specialize (Hall c Hc).
  rewrite !andb_true_iff in Hall. destruct Hall as [[He H0] H1].
  split; [now apply bits_eqb_eq|]. unfold is_u8. change (2 ^ 8) with 256. lia.
Qed.

Lemma crc_bits_clock (n : nat) : forall c : Z,
  is_u8 c ->
  bits_of_byte (crc_bits n c) = Nat.iter n clock (bits_of_byte c) /\ is_u8 (crc_bits n c).
Proof.
  induction n as [|n IH]; intros c Hc.
  - now split.
  - cbn [crc_bits]. destruct (crc_shift_clock c Hc) as [Hs Hr].
    destruct (IH _ Hr) as [Hb Hu]. split; [|exact Hu].
    rewrite Hb, Hs. symmetry. apply Nat.iter_succ_r.
Qed.

(** XOR-in: the bits of [crc ^ d] are the bitwise XOR of the two. *)
Lemma xor_in_bits (c d : Z) :
  bits_of_byte (u8 (Z.lxor c d)) = xor_bits (bits_of_byte c) (bits_of_byte d).
Proof.
  unfold bits_of_byte, u8. cbn [map xor_bits].
  repeat (rewrite Z.mod_pow2_bits_low by lia). now rewrite !Z.lxor_spec.
Qed.

Lemma value_of_bits_of_byte (c : Z) : is_u8 c -> value_of_bits (bits_of_byte c) = c.
Proof.
  intros H. apply in_all_bytes in H.
  assert (forallb (fun c => value_of_bits (bits_of_byte c) =? c) all_bytes = true)
    as Hall by (vm_compute; reflexivity).
  rewrite forallb_forall in Hall. now apply Z.eqb_eq, Hall.
Qed.

Lemma skipn_nth_cons (data : list Z) : forall x : nat,
  (x < length data)%nat -> skipn x data = nth x data 0 :: skipn (S x) data.
Proof.
  induction data as [|d data IH]; intros [|x] Hx; simpl in *; try lia; auto.
  apply IH. lia.
Qed.

Lemma crc_bytes_reference (data : list Z) (n : nat) : forall (x : nat) (crc : Z),
  is_u8 crc -> (x + n <= length data)%nat ->
  bits_of_byte (crc_bytes data x n crc)
  = fold_left absorb_byte (firstn n (skipn x data)) (bits_of_byte crc)
  /\ is_u8 (crc_bytes data x n crc).
Proof.
  induction n as [|n IH]; intros x crc Hc Hx.
  - now split.
  - cbn [crc_bytes]. rewrite (skipn_nth_cons data x) by lia.
    cbn [firstn fold_left].
    destruct (crc_bits_clock 8 (u8 (Z.lxor crc (nth x data 0))) (u8_range _)) as [Hb Hu].
    destruct (IH (S x) _ Hu ltac:(lia)) as [Hb' Hu'].
    split; [|exact Hu'].
    rewrite Hb', Hb, xor_in_bits. reflexivity.
Qed.

(** C7: [computeCRC8] is a pure function of its bytes that agrees, on
    every array and every length within it, with the bit-at-a-time CRC-8
    of the specification (initial register 0xFF, generator 0x31, bytes
    taken most significant bit first, XOR-in per byte, the generator folded
    in when the top bit was set before the shift); its result is one byte,
    and on the two-byte arguments of the device's documented examples it
    gives the documented checksums. *)
Theorem computeCRC8_refines_reference (data : list Z) (len : Z)
  (Hlen : 0 <= len <= Z.of_nat (length data)) :
  computeCRC8 data len = crc8_reference (firstn (Z.to_nat len) data)
  /\ is_u8 (computeCRC8 data len)
  /\ computeCRC8 [0xBE; 0xEF] 2 = 0x92
  /\ computeCRC8 [0x00; 0x00] 2 = 0x81
  /\ computeCRC8 [0x00; 0x02] 2 = 0xE3
  /\ computeCRC8 [0x03; 0xE8] 2 = 0xD4.
Proof.
  assert (is_u8 0xFF) as Hinit by (unfold is_u8; lia).
  destruct (crc_bytes_reference data (Z.to_nat len) 0 0xFF Hinit ltac:(lia))
    as [Hb Hu].
  unfold computeCRC8, crc8_reference.
  split; [|split; [exact Hu|repeat split; reflexivity]].
  rewrite <- (value_of_bits_of_byte _ Hu), Hb. reflexivity.
Qed.

Lemma computeCRC8_refines_reference_witness :
  0 <= 2 <= Z.of_nat (length [0x03; 0xE8])
  /\ computeCRC8 [0x03; 0xE8] 2 = crc8_reference (firstn (Z.to_nat 2) [0x03; 0xE8]).
Proof.
  assert (0 <= 2 <= Z.of_nat (length [0x03; 0xE8])) as H by (simpl; lia).
  split; [exact H|].
  exact (proj1 (computeCRC8_refines_reference [0x03; 0xE8] 2 H)).
Defined.

Lemma computeCRC8_two_u8 (a b : Z) : is_u8 (computeCRC8 [a; b] 2).
Proof.
  assert (is_u8 0xFF) as Hinit by (unfold is_u8; lia).
  apply (crc_bytes_reference [a; b] 2 0 0xFF Hinit). simpl. lia.
Qed.

End Checksum.

(** ** Frames on the wire *)

Lemma shiftr8_u16 (a : Z) : is_u16 a -> u8 (Z.shiftr a 8) = a / 256.
Proof.
  intros [H0 H1]. rewrite Z.shiftr_div_pow2 by lia. change (2 ^ 8) with 256.
  change (2 ^ 16) with 65536 in H1.
  apply u8_small. unfold is_u8. change (2 ^ 8) with 256.
  split; [apply Z.div_pos; lia|apply Z.div_lt_upper_bound; lia].
Qed.

Lemma land255 (a : Z) : u8 (Z.land a 0x00FF) = a mod 256.
Proof.
  change 0x00FF with (Z.ones 8). rewrite Z.land_ones by lia.
  unfold u8. change (2 ^ 8) with 256. apply Z.mod_mod. lia.
Qed.

(** The five bytes of a command with a 16-bit argument: both big-endian,
    then the checksum of the two argument bytes. *)
Lemma command_frame_bytes (command argument : Z) :
  is_u16 command -> is_u16 argument ->
  command_frame command argument =
  [command / 256; command mod 256; argument / 256; argument mod 256;
   computeCRC8 [argument / 256; argument mod 256] 2].
Proof.
  intros Hc Ha. unfold command_frame.
  rewrite !shiftr8_u16, !land255 by assumption.
  rewrite u8_small by apply computeCRC8_two_u8. reflexivity.
Qed.

Lemma address_frame_bytes (command : Z) :
  is_u16 command -> address_frame command = [command / 256; command mod 256].
Proof.
  intros Hc. unfold address_frame. now rewrite shiftr8_u16, land255.
Qed.

Lemma issued_written (dev : Device) {A : Type} (c : M A) (w : World) (payload : list Z) :
  after (c w) = written dev w payload ->
  issued c w =
  [BusWrite SCD30_I2C_ADDRESS payload
     (dev_ack dev (history (wire w)) SCD30_I2C_ADDRESS payload)].
Proof.
  intros H. unfold issued. rewrite H. unfold written. cbn [wire history].
  apply skipn_app_exact.
Qed.

Lemma issued_nothing {A : Type} (c : M A) (w : World) :
  after (c w) = w -> issued c w = [].
Proof.
  intros H. unfold issued. rewrite H.
  rewrite <- (app_nil_r (history (wire w))) at 2. apply skipn_app_exact.
Qed.

(** ** Configuration commands *)

(** Case analysis on every comparison of a range test in the goal. *)
Ltac range_cases :=
  repeat match goal with
         | |- context [?a <? ?b] => destruct (Z.ltb_spec a b)
         | |- context [?a >? ?b] => destruct (Z.gtb_spec a b)
         | |- context [?a <=? ?b] => destruct (Z.leb_spec a b)
         end;
  cbn [orb andb]; try lia.

Section Configuration.

Variable dev : Device.

Lemma setForcedRecalibrationValue_run (concentration : Z) (w : World) :
  after (setForcedRecalibrationValue dev concentration w) =
  if (400 <=? concentration) && (concentration <=? 2000)
  then written dev w (command_frame SCD30_SET_FORCED_RECALIBRATION concentration)
  else w.
Proof.
  unfold setForcedRecalibrationValue. range_cases; try reflexivity.
  unfold bind. rewrite sendCommand_run. reflexivity.
Qed.

(** C4: [setForcedRecalibrationValue] puts a command on the bus exactly
    when 400 <= concentration <= 2000.  Outside that range it leaves the
    world as it was; inside, the one transaction it issues carries the
    set-forced-recalibration code 0x5204, the argument (big-endian) and the
    checksum of the two argument bytes. *)
Theorem setForcedRecalibrationValue_range (concentration : Z) (w : World) :
  let payload :=
    [0x52; 0x04; concentration / 256; concentration mod 256;
     computeCRC8 [concentration / 256; concentration mod 256] 2] in
  (issued (setForcedRecalibrationValue dev concentration) w <> []
   <-> 400 <= concentration <= 2000)
  /\ (400 <= concentration <= 2000 ->
      issued (setForcedRecalibrationValue dev concentration) w =
      [BusWrite SCD30_I2C_ADDRESS payload
         (dev_ack dev (history (wire w)) SCD30_I2C_ADDRESS payload)])
  /\ (~ 400 <= concentration <= 2000 ->
      after (setForcedRecalibrationValue dev concentration w) = w).
Proof.
  intros payload.
  pose proof (setForcedRecalibrationValue_run concentration w) as Hrun.
  assert (400 <= concentration <= 2000 ->
          issued (setForcedRecalibrationValue dev concentration) w =
          [BusWrite SCD30_I2C_ADDRESS payload
             (dev_ack dev (history (wire w)) SCD30_I2C_ADDRESS payload)]) as Hin.
  { intros Hr.
    destruct (Z.leb_spec 400 concentration); try lia.
    destruct (Z.leb_spec concentration 2000); try lia. cbn [andb] in Hrun.
    rewrite (issued_written dev _ _ _ Hrun).
    rewrite command_frame_bytes; [reflexivity| |];
      unfold is_u16, SCD30_SET_FORCED_RECALIBRATION; lia. }
  assert (~ 400 <= concentration <= 2000 ->
          after (setForcedRecalibrationValue dev concentration w) = w) as Hout.
  { intros Hr.
    destruct (Z.leb_spec 400 concentration);
      destruct (Z.leb_spec concentration 2000); try lia; exact Hrun. }
  split; [|split; assumption].
  split.
  - intros Hne. destruct (Z_le_dec 400 concentration) as [Hlo|Hlo];
      [destruct (Z_le_dec concentration 2000) as [Hhi|Hhi]|]; try lia;
      exfalso; apply Hne, issued_nothing, Hout; lia.
  - intros Hr. rewrite (Hin Hr). discriminate.
Qed.

Lemma setAmbientPressure_run (ambientPressure : Z) (w : World) :
  after (setAmbientPressure dev ambientPressure w) =
  written dev w
    (command_frame SCD30_START_CONTINUOUS_MEASUREMENT
       (if (700 <=? ambientPressure) && (ambientPressure <=? 1200)
        then ambientPressure else 0)).
Proof.
  unfold setAmbientPressure.
  range_cases; unfold bind; rewrite sendCommand_run; reflexivity.
Qed.

(** C5: whatever the pressure, [setAmbientPressure] issues exactly one
    start-continuous-measurement command (code 0x0010); its argument is the
    pressure itself when 700 <= pressure <= 1200 and 0 otherwise, so 600
    and 1300 are sent as 0 and 1000 is sent as 1000. *)
Theorem setAmbientPressure_coerces (ambientPressure : Z) (w : World) :
  let sent :=
    if (700 <=? ambientPressure) && (ambientPressure <=? 1200)
    then ambientPressure else 0 in
  let payload :=
    [0x00; 0x10; sent / 256; sent mod 256;
     computeCRC8 [sent / 256; sent mod 256] 2] in
  issued (setAmbientPressure dev ambientPressure) w =
  [BusWrite SCD30_I2C_ADDRESS payload
     (dev_ack dev (history (wire w)) SCD30_I2C_ADDRESS payload)]
  /\ (700 <= ambientPressure <= 1200 -> sent = ambientPressure)
  /\ (~ 700 <= ambientPressure <= 1200 -> sent = 0)
  /\ issued (setAmbientPressure dev 600) w =
     [BusWrite SCD30_I2C_ADDRESS [0x00; 0x10; 0x00; 0x00; 0x81]
        (dev_ack dev (history (wire w)) SCD30_I2C_ADDRESS [0x00; 0x10; 0x00; 0x00; 0x81])]
  /\ issued (setAmbientPressure dev 1300) w =
     [BusWrite SCD30_I2C_ADDRESS [0x00; 0x10; 0x00; 0x00; 0x81]
        (dev_ack dev (history (wire w)) SCD30_I2C_ADDRESS [0x00; 0x10; 0x00; 0x00; 0x81])]
  /\ issued (setAmbientPressure dev 1000) w =
     [BusWrite SCD30_I2C_ADDRESS [0x00; 0x10; 0x03; 0xE8; 0xD4]
        (dev_ack dev (history (wire w)) SCD30_I2C_ADDRESS [0x00; 0x10; 0x03; 0xE8; 0xD4])].
Proof.
  intros sent payload.
  assert (is_u16 sent) as Hs.
  { unfold sent, is_u16. range_cases. }
  split; [|split; [|split; [|repeat split]]].
  - rewrite (issued_written dev _ _ _ (setAmbientPressure_run ambientPressure w)).
    fold sent. rewrite command_frame_bytes; [reflexivity| |exact Hs].
    unfold is_u16, SCD30_START_CONTINUOUS_MEASUREMENT; lia.
  - intros Hr. unfold sent. range_cases.
  - intros Hr. unfold sent. range_cases.
  - exact (issued_written dev _ _ _ (setAmbientPressure_run 600 w)).
  - exact (issued_written dev _ _ _ (setAmbientPressure_run 1300 w)).
  - exact (issued_written dev _ _ _ (setAmbientPressure_run 1000 w)).
Qed.

Lemma setMeasurementInterval_run (interval : Z) (w : World) :
  after (setMeasurementInterval dev interval w) =
  written dev w (command_frame SCD30_SET_MEASUREMENT_INTERVAL interval).
Proof.
  unfold setMeasurementInterval, bind. rewrite sendCommand_run. reflexivity.
Qed.

Lemma begin_run (w : World) :
  begin dev w =
  let start := command_frame SCD30_START_CONTINUOUS_MEASUREMENT 0 in
  let w1 := written dev (begun w) start in
  if acked (dev_ack dev (history (wire (begun w))) SCD30_I2C_ADDRESS start)
  then (true, written dev w1 (command_frame SCD30_SET_MEASUREMENT_INTERVAL 2))
  else (false, w1).
Proof.
  unfold begin, beginMeasuring0, beginMeasuring.
  unfold bind at 1. unfold Wire_begin, on_wire. fold (begun w).
  unfold bind at 1. rewrite sendCommand_run. cbv zeta.
  destruct (acked _); [|reflexivity].
  unfold bind.
  pose proof (setMeasurementInterval_run 2
                (written dev (begun w)
                   (command_frame SCD30_START_CONTINUOUS_MEASUREMENT 0))) as H.
  unfold after in H.
  destruct (setMeasurementInterval dev 2 _) as [u w2]. cbn [snd] in H.
  now rewrite H.
Qed.

(** C6: [begin] initialises the bus and sends start-continuous-measurement
    (code 0x0010) with argument 0.  Its result is whether that command was
    acknowledged: if not, nothing more is sent and the result is [false];
    if so, it also sends set-measurement-interval (code 0x4600) with
    argument 2 and the result is [true]. *)
Theorem begin_starts_measuring (w : World) :
  let start := [0x00; 0x10; 0x00; 0x00; 0x81] in
  let interval := [0x46; 0x00; 0x00; 0x02; 0xE3] in
  let h0 := history (wire w) ++ [BusBegin] in
  let st := dev_ack dev h0 SCD30_I2C_ADDRESS start in
  let h1 := h0 ++ [BusWrite SCD30_I2C_ADDRESS start st] in
  result (begin dev w) = acked st
  /\ (st <> TWI_OK ->
      result (begin dev w) = false
      /\ issued (begin dev) w = [BusBegin; BusWrite SCD30_I2C_ADDRESS start st])
  /\ (st = TWI_OK ->
      result (begin dev w) = true
      /\ issued (begin dev) w =
         [BusBegin; BusWrite SCD30_I2C_ADDRESS start TWI_OK;
          BusWrite SCD30_I2C_ADDRESS interval
            (dev_ack dev h1 SCD30_I2C_ADDRESS interval)]).
Proof.
  intros start interval h0 st h1.
  pose proof (begin_run w) as Hrun. cbv zeta in Hrun.
  change (command_frame SCD30_START_CONTINUOUS_MEASUREMENT 0) with start in Hrun.
  change (command_frame SCD30_SET_MEASUREMENT_INTERVAL 2) with interval in Hrun.
  change (history (wire (begun w))) with h0 in Hrun. fold st in Hrun.
  unfold issued, result, after.
  split; [|split].
  - rewrite Hrun. now destruct (acked st).
  - intros Hst. rewrite Hrun.
    assert (acked st = false) as -> by (destruct st; congruence || reflexivity).
    split; [reflexivity|]. cbn [fst snd written wire history begun].
    fold h0. fold st. unfold h0. rewrite <- app_assoc. apply skipn_app_exact.
  - intros Hst. rewrite Hrun. subst h1. rewrite Hst. cbn [acked].
    split; [reflexivity|]. cbn [fst snd written wire history begun].
    fold h0. fold st. rewrite Hst. unfold h0. rewrite <- !app_assoc.
    apply skipn_app_exact.
Qed.

End Configuration.

(** ** Register reads *)

Lemma lor_shiftl_add (t x n : Z) :
  0 <= n -> 0 <= x < 2 ^ n -> Z.lor (Z.shiftl t n) x = t * 2 ^ n + x.
Proof.
  intros Hn Hx. rewrite <- Z.shiftl_mul_pow2 by exact Hn.
  rewrite <- Z.add_lor_land.
  enough (Z.land (Z.shiftl t n) x = 0) as -> by lia.
  apply Z.bits_inj'. intros i Hi. rewrite Z.land_spec, Z.bits_0.
  destruct (Z.lt_ge_cases i n) as [Hlt|Hge].
  - rewrite Z.shiftl_spec_low by exact Hlt. reflexivity.
  - rewrite <- (Z.mod_small x (2 ^ n)) by exact Hx.
    rewrite Z.mod_pow2_bits_high by lia. apply andb_false_r.
Qed.

(** [(MSB << 8) | LSB] for two bytes. *)
Lemma combine_bytes (msb lsb : Z) :
  is_u8 msb -> is_u8 lsb ->
  Z.lor (u16 (Z.shiftl (u8 msb) 8)) (u8 lsb) = msb * 256 + lsb.
Proof.
  intros Hm Hl. rewrite !u8_small by assumption.
  unfold is_u8 in *. change (2 ^ 8) with 256 in *.
  unfold u16. rewrite (Z.mod_small (Z.shiftl msb 8)).
  - rewrite lor_shiftl_add by lia. reflexivity.
  - rewrite Z.shiftl_mul_pow2 by lia. change (2 ^ 16) with 65536. lia.
Qed.

Section Registers.

Variable dev : Device.

(** C9: [readRegister] sends the two address bytes; it returns 0 when
    that write is not acknowledged, 0 again when the write is acknowledged
    and no byte comes back, and [(MSB << 8) | LSB] = 256 * MSB + LSB when
    the two bytes MSB, LSB come back.  A register that holds 0 therefore
    reads exactly as a failed read does. *)
Theorem readRegister_result (registerAddress : Z) (w : World) :
  let request := address_frame registerAddress in
  let st := dev_ack dev (history (wire w)) SCD30_I2C_ADDRESS request in
  let got :=
    firstn 2
      (dev_reply dev
         (history (wire w) ++ [BusWrite SCD30_I2C_ADDRESS request st])
         SCD30_I2C_ADDRESS 2) in
  (st <> TWI_OK -> result (readRegister dev registerAddress w) = 0)
  /\ (st = TWI_OK -> got = [] -> result (readRegister dev registerAddress w) = 0)
  /\ (st = TWI_OK ->
      forall msb lsb : Z, got = [msb; lsb] -> is_u8 msb -> is_u8 lsb ->
      result (readRegister dev registerAddress w) = Z.lor (Z.shiftl msb 8) lsb
      /\ result (readRegister dev registerAddress w) = 256 * msb + lsb)
  /\ result (readRegister absent_device registerAddress w) = 0
  /\ result (readRegister mute_device registerAddress w) = 0
  /\ result (readRegister (scripted_device 0 []) registerAddress w) = 0.
Proof.
  intros request st got. rewrite !readRegister_run. cbv zeta.
  fold request. fold st.
  split; [|split; [|split; [|repeat split]]].
  - intros Hst. destruct st; try congruence; reflexivity.
  - intros Hst Hgot. rewrite Hst. cbn [acked result fst].
    unfold reply_in, written. cbn [wire history]. fold request. fold st.
    rewrite Hst. change (Z.to_nat 2) with 2%nat.
    unfold got in Hgot. rewrite Hst in Hgot. now rewrite Hgot.
  - intros Hst msb lsb Hgot Hm Hl. rewrite Hst. cbn [acked result fst].
    unfold reply_in, written. cbn [wire history]. fold request. fold st.
    rewrite Hst. change (Z.to_nat 2) with 2%nat.
    unfold got in Hgot. rewrite Hst in Hgot. rewrite Hgot.
    cbn [register_value]. rewrite combine_bytes by assumption.
    split; [|lia].
    rewrite lor_shiftl_add; unfold is_u8 in *; lia.
Qed.

End Registers.

(** ** The binary32 view of a word *)

Lemma digits2_pos_bounds (m : positive) :
  2 ^ (Z.pos (digits2_pos m) - 1) <= Z.pos m < 2 ^ Z.pos (digits2_pos m).
Proof.
  induction m as [p IH|p IH|]; cbn [digits2_pos].
  - rewrite Pos2Z.inj_succ. change (Z.pos p~1) with (2 * Z.pos p + 1).
    replace (Z.succ (Z.pos (digits2_pos p)) - 1) with (Z.succ (Z.pos (digits2_pos p) - 1)) by lia.
    rewrite !Z.pow_succ_r by lia.
    revert IH. generalize (2 ^ (Z.pos (digits2_pos p) - 1)) (2 ^ Z.pos (digits2_pos p)).
    intros lo hi IH. lia.
  - rewrite Pos2Z.inj_succ. change (Z.pos p~0) with (2 * Z.pos p).
    replace (Z.succ (Z.pos (digits2_pos p)) - 1) with (Z.succ (Z.pos (digits2_pos p) - 1)) by lia.
    rewrite !Z.pow_succ_r by lia.
    revert IH. generalize (2 ^ (Z.pos (digits2_pos p) - 1)) (2 ^ Z.pos (digits2_pos p)).
    intros lo hi IH. lia.
  - cbn. lia.
Qed.

(** A valid finite binary32 is normal (24 significant bits) or subnormal
    (fewer, at the least exponent). *)
Lemma bounded_binary32 (m : positive) (e : Z) :
  bounded 24 128 m e = true ->
  (2 ^ 23 <= Z.pos m < 2 ^ 24 /\ -149 <= e <= 104)
  \/ (Z.pos m < 2 ^ 23 /\ e = -149).
Proof.
  unfold bounded, canonical_mantissa, fexp, emin.
  rewrite andb_true_iff, Z.eqb_eq, Z.leb_le. intros [Hc He].
  pose proof (digits2_pos_bounds m) as Hd.
  set (d := Z.pos (digits2_pos m)) in *.
  assert (0 < d) as Hpos by (unfold d; lia).
  destruct (Z.eq_dec d 24) as [E|E].
  - left. rewrite E in Hd. change (24 - 1) with 23 in Hd. lia.
  - right. assert (d <= 23) as Hle by lia.
    split; [|lia].
    apply Z.lt_le_trans with (2 ^ d); [apply Hd|].
    apply Z.pow_le_mono_r; lia.
Qed.

(** The three fields of a word put together from sign, exponent and
    fraction. *)
Lemma b32_fields (s : bool) (E f : Z) :
  0 <= E < 256 -> 0 <= f < 2 ^ 23 ->
  let x := IEEE.sign_bit s + E * 2 ^ 23 + f in
  Z.testbit x 31 = s
  /\ Z.land (Z.shiftr x 23) 0xFF = E
  /\ Z.land x 0x7FFFFF = f.
Proof.
  intros HE Hf x. change (2 ^ 23) with 8388608 in *.
  assert (0 <= x) as Hx by (unfold x, IEEE.sign_bit; destruct s; lia).
  split; [|split].
  - destruct s.
    + apply Z.testbit_true; [lia|]. unfold x, IEEE.sign_bit.
      change (2 ^ 31) with 2147483648. change (2 ^ 23) with 8388608.
      Z.div_mod_to_equations. lia.
    + apply Z.testbit_false; [lia|]. unfold x, IEEE.sign_bit.
      change (2 ^ 31) with 2147483648. change (2 ^ 23) with 8388608.
      Z.div_mod_to_equations. lia.
  - change 0xFF with (Z.ones 8). rewrite Z.land_ones, Z.shiftr_div_pow2 by lia.
    unfold x, IEEE.sign_bit. change (2 ^ 23) with 8388608. change (2 ^ 8) with 256.
    destruct s; change (2 ^ 31) with 2147483648; Z.div_mod_to_equations; lia.
  - change 0x7FFFFF with (Z.ones 23). rewrite Z.land_ones by lia.
    unfold x, IEEE.sign_bit. change (2 ^ 23) with 8388608.
    destruct s; change (2 ^ 31) with 2147483648; Z.div_mod_to_equations; lia.
Qed.

(** Encoding a value and reading the word back gives the value. *)
Lemma b32_of_bits_of_b32 (v : spec_float) :
  valid_binary 24 128 v = true -> v <> S754_nan ->
  IEEE.b32_of_bits (IEEE.bits_of_b32 v) = v.
Proof.
  intros Hv Hn. destruct v as [s|s| |s m e]; cbn [IEEE.bits_of_b32].
  - destruct (b32_fields s 0 0) as (H1 & H2 & H3); [lia|lia|].
    cbv zeta in H1, H2, H3. rewrite Z.mul_0_l, !Z.add_0_r in H1, H2, H3.
    unfold IEEE.b32_of_bits. rewrite H1, H2, H3. reflexivity.
  - destruct (b32_fields s 255 0) as (H1 & H2 & H3); [lia|lia|].
    cbv zeta in H1, H2, H3. rewrite Z.add_0_r in H1, H2, H3.
    change (255 * 2 ^ 23) with 0x7F800000 in H1, H2, H3.
    unfold IEEE.b32_of_bits. rewrite H1, H2, H3. reflexivity.
  - congruence.
  - cbn [valid_binary] in Hv. apply bounded_binary32 in Hv.
    destruct Hv as [[Hm He]|[Hm He]].
    + destruct (b32_fields s (e + 150) (Z.pos m - 2 ^ 23)) as (H1 & H2 & H3);
        [lia|lia|].
      cbv zeta in H1, H2, H3.
      replace (IEEE.sign_bit s + (e + 150) * 2 ^ 23 + (Z.pos m - 2 ^ 23))
        with (IEEE.sign_bit s + (e + 149) * 2 ^ 23 + Z.pos m) in H1, H2, H3 by lia.
      unfold IEEE.b32_of_bits. rewrite H1, H2, H3.
      destruct (Z.eqb_spec (e + 150) 0); [lia|].
      destruct (Z.eqb_spec (e + 150) 255); [lia|].
      replace (Z.pos m - 2 ^ 23 + 2 ^ 23) with (Z.pos m) by lia.
      f_equal. lia.
    + subst e. destruct (b32_fields s 0 (Z.pos m)) as (H1 & H2 & H3); [lia|lia|].
      cbv zeta in H1, H2, H3. change (-149 + 149) with 0.
      unfold IEEE.b32_of_bits. rewrite H1, H2, H3. reflexivity.
Qed.

(** The fields of a 32-bit word. *)
Lemma b32_split (x : Z) :
  is_u32 x ->
  let sg := x / 2 ^ 31 in
  let ex := (x / 2 ^ 23) mod 256 in
  let f := x mod 2 ^ 23 in
  x = sg * 2 ^ 31 + ex * 2 ^ 23 + f
  /\ 0 <= sg <= 1 /\ 0 <= ex < 256 /\ 0 <= f < 2 ^ 23
  /\ Z.testbit x 31 = (sg =? 1)
  /\ Z.land (Z.shiftr x 23) 0xFF = ex
  /\ Z.land x 0x7FFFFF = f.
Proof.
  intros Hx sg ex f. unfold is_u32 in Hx.
  change (2 ^ 32) with 4294967296 in Hx.
  assert (x = sg * 2 ^ 31 + ex * 2 ^ 23 + f /\ 0 <= sg <= 1 /\ 0 <= ex < 256
          /\ 0 <= f < 2 ^ 23) as (Hsum & HS & HE & Hf).
  { unfold sg, ex, f. change (2 ^ 31) with 2147483648. change (2 ^ 23) with 8388608.
    Z.div_mod_to_equations. lia. }
  repeat split; try lia.
  - destruct (Z.eqb_spec sg 1) as [H1|H1].
    + apply Z.testbit_true; [lia|]. fold sg. rewrite H1. reflexivity.
    + apply Z.testbit_false; [lia|]. fold sg.
      replace sg with 0 by lia. reflexivity.
  - change 0xFF with (Z.ones 8). rewrite Z.land_ones, Z.shiftr_div_pow2 by lia.
    reflexivity.
  - change 0x7FFFFF with (Z.ones 23). rewrite Z.land_ones by lia. reflexivity.
Qed.

Lemma digits2_pos_24 (p : positive) :
  2 ^ 23 <= Z.pos p < 2 ^ 24 -> Z.pos (digits2_pos p) = 24.
Proof.
  intros Hp. pose proof (digits2_pos_bounds p) as Hd.
  set (d := Z.pos (digits2_pos p)) in *.
  assert (0 < d) as Hpos by (unfold d; lia).
  destruct (Z.lt_trichotomy d 24) as [Hlt|[Heq|Hgt]]; [exfalso|exact Heq|exfalso].
  - assert (2 ^ d <= 2 ^ 23) by (apply Z.pow_le_mono_r; lia). lia.
  - assert (2 ^ 24 <= 2 ^ (d - 1)) by (apply Z.pow_le_mono_r; lia). lia.
Qed.

Lemma digits2_pos_subnormal (p : positive) :
  Z.pos p < 2 ^ 23 -> Z.pos (digits2_pos p) <= 23.
Proof.
  intros Hp. pose proof (digits2_pos_bounds p) as Hd.
  set (d := Z.pos (digits2_pos p)) in *.
  destruct (Z.le_gt_cases d 23) as [Hle|Hgt]; [exact Hle|exfalso].
  assert (2 ^ 23 <= 2 ^ (d - 1)) by (apply Z.pow_le_mono_r; lia). lia.
Qed.

(** Every 32-bit word is the representation of a valid binary32, and of
    one only: reading a word that is not a NaN and encoding the value gives
    the word back. *)
Lemma b32_of_bits_faithful (x : Z) :
  is_u32 x ->
  valid_binary 24 128 (IEEE.b32_of_bits x) = true
  /\ (IEEE.b32_of_bits x <> S754_nan -> IEEE.bits_of_b32 (IEEE.b32_of_bits x) = x).
Proof.
  intros Hx. destruct (b32_split x Hx) as (Hsum & HS & HE & Hf & Hs & He & Hm).
  cbv zeta in Hsum, HS, HE, Hf, Hs, He, Hm.
  set (sg := x / 2 ^ 31) in *. set (ex := (x / 2 ^ 23) mod 256) in *.
  set (f := x mod 2 ^ 23) in *.
  assert (IEEE.sign_bit (sg =? 1) = sg * 2 ^ 31) as Hsign.
  { unfold IEEE.sign_bit. destruct (Z.eqb_spec sg 1); lia. }
  unfold IEEE.b32_of_bits. rewrite Hs, He, Hm.
  destruct (Z.eqb_spec ex 0) as [E0|E0].
  - destruct f as [|p|p] eqn:Ef; [| |lia].
    + split; [reflexivity|]. intros _. cbn [IEEE.bits_of_b32]. lia.
    + split.
      * cbn [valid_binary]. unfold bounded, canonical_mantissa, fexp, emin.
        pose proof (digits2_pos_subnormal p ltac:(lia)) as Hd.
        apply andb_true_iff. split; [apply Z.eqb_eq|apply Z.leb_le]; lia.
      * intros _. cbn [IEEE.bits_of_b32]. change (-149 + 149) with 0. lia.
  - destruct (Z.eqb_spec ex 255) as [E1|E1].
    + destruct f as [|p|p] eqn:Ef; [| |lia].
      * split; [reflexivity|]. intros _. cbn [IEEE.bits_of_b32].
        change 0x7F800000 with (255 * 2 ^ 23). lia.
      * split; [reflexivity|]. congruence.
    + destruct (f + 2 ^ 23) as [|p|p] eqn:Ef; [lia| |lia].
      split.
      * cbn [valid_binary]. unfold bounded, canonical_mantissa, fexp, emin.
        pose proof (digits2_pos_24 p ltac:(lia)) as Hd. rewrite Hd.
        apply andb_true_iff. split; [apply Z.eqb_eq|apply Z.leb_le]; lia.
      * intros _. cbn [IEEE.bits_of_b32]. lia.
Qed.

(** ** Reading a measurement *)

Lemma push_byte_small (t x : Z) :
  0 <= t < 2 ^ 24 -> is_u8 x -> push_byte t (u8 x) = t * 256 + x.
Proof.
  intros Ht Hx. unfold push_byte. rewrite u8_small by exact Hx.
  unfold is_u8 in Hx. change (2 ^ 8) with 256 in Hx. change (2 ^ 24) with 16777216 in Ht.
  unfold u32. rewrite (Z.mod_small (Z.shiftl t 8)).
  - rewrite lor_shiftl_add by lia. reflexivity.
  - rewrite Z.shiftl_mul_pow2 by lia. change (2 ^ 8) with 256.
    change (2 ^ 32) with 4294967296. lia.
Qed.

Lemma push_four (a b c d : Z) :
  is_u8 a -> is_u8 b -> is_u8 c -> is_u8 d ->
  push_byte (push_byte (push_byte (push_byte 0 (u8 a)) (u8 b)) (u8 c)) (u8 d)
  = be32 a b c d.
Proof.
  intros Ha Hb Hc Hd. pose proof Ha as Ha'. pose proof Hb as Hb'. pose proof Hc as Hc'.
  unfold is_u8 in Ha', Hb', Hc'. change (2 ^ 8) with 256 in *.
  rewrite (push_byte_small 0 a) by (try assumption; lia).
  rewrite (push_byte_small _ b) by (try assumption; change (2 ^ 24) with 16777216; lia).
  rewrite (push_byte_small _ c) by (try assumption; change (2 ^ 24) with 16777216; lia).
  rewrite (push_byte_small _ d) by (try assumption; change (2 ^ 24) with 16777216; lia).
  unfold be32. change (2 ^ 24) with 16777216. change (2 ^ 16) with 65536.
  change (2 ^ 8) with 256. lia.
Qed.

Lemma absorb_fields (b x c t h : Z) :
  absorb b x (mkTemps c t h) =
  if (b =? 0) || (b =? 1) || (b =? 3) || (b =? 4) then mkTemps (push_byte c x) t h
  else if (b =? 6) || (b =? 7) || (b =? 9) || (b =? 10) then mkTemps c (push_byte t x) h
  else if (b =? 12) || (b =? 13) || (b =? 15) || (b =? 16) then mkTemps c t (push_byte h x)
  else mkTemps c t h.
Proof. reflexivity. Qed.

(** The receive loop on a full frame. *)
Lemma decode_full_frame (b0 b1 b2 b3 b4 b5 b6 b7 b8 b9 b10 b11 b12 b13 b14 b15 b16 b17 : Z) :
  Forall is_u8 [b0; b1; b3; b4; b6; b7; b9; b10; b12; b13; b15; b16] ->
  measurement_of
    [b0; b1; b2; b3; b4; b5; b6; b7; b8; b9; b10; b11; b12; b13; b14; b15; b16; b17]
  = (mkTemps (be32 b0 b1 b3 b4) (be32 b6 b7 b9 b10) (be32 b12 b13 b15 b16), []).
Proof.
  intros H.
  repeat match goal with
         | H : Forall _ (_ :: _) |- _ => inversion H; subst; clear H
         end.
  unfold measurement_of. simpl.
  repeat (rewrite absorb_fields; simpl).
  rewrite !push_four by assumption. reflexivity.
Qed.

Section Measurement.

Variable dev : Device.

(** C2: when the read-measurement command (0x0300) is acknowledged and an
    18-byte frame comes back, [readMeasurement] returns [true] and leaves in
    the cache, as the object representation of each [float], the bytes at
    offsets 0, 1, 3, 4 (CO2), 6, 7, 9, 10 (temperature) and 12, 13, 15, 16
    (humidity) in arrival order, the first on top; the bytes at offsets 2,
    5, 8, 11, 14 and 17 have no influence.  Read as a binary32 the stored
    word is exactly the value whose encoding the four bytes are; a frame
    whose CO2 bytes are 0x43 0xE1 0x00 0x00, the big-endian binary32
    encoding of 450.0, leaves the value 450.0 in [co2]. *)
Theorem readMeasurement_decodes_frame (w : World)
  (b0 b1 b2 b3 b4 b5 b6 b7 b8 b9 b10 b11 b12 b13 b14 b15 b16 b17 : Z)
  (Hack : dev_ack dev (history (wire w)) SCD30_I2C_ADDRESS [0x03; 0x00] = TWI_OK)
  (Hframe :
     firstn 18
       (dev_reply dev
          (history (wire w) ++ [BusWrite SCD30_I2C_ADDRESS [0x03; 0x00] TWI_OK])
          SCD30_I2C_ADDRESS 18)
     = [b0; b1; b2; b3; b4; b5; b6; b7; b8; b9; b10; b11; b12; b13; b14; b15; b16; b17])
  (Hbytes : Forall is_u8 [b0; b1; b3; b4; b6; b7; b9; b10; b12; b13; b15; b16]) :
  result (readMeasurement dev w) = true
  /\ co2 (this (after (readMeasurement dev w))) = be32 b0 b1 b3 b4
  /\ temperature (this (after (readMeasurement dev w))) = be32 b6 b7 b9 b10
  /\ humidity (this (after (readMeasurement dev w))) = be32 b12 b13 b15 b16
  /\ (forall v : spec_float,
        valid_binary 24 128 v = true -> v <> S754_nan ->
        (be32 b0 b1 b3 b4 = IEEE.bits_of_b32 v ->
         IEEE.b32_of_bits (co2 (this (after (readMeasurement dev w)))) = v)
        /\ (be32 b6 b7 b9 b10 = IEEE.bits_of_b32 v ->
            IEEE.b32_of_bits (temperature (this (after (readMeasurement dev w)))) = v)
        /\ (be32 b12 b13 b15 b16 = IEEE.bits_of_b32 v ->
            IEEE.b32_of_bits (humidity (this (after (readMeasurement dev w)))) = v))
  /\ (b0 = 0x43 -> b1 = 0xE1 -> b3 = 0x00 -> b4 = 0x00 ->
      IEEE.b32_of_bits (co2 (this (after (readMeasurement dev w))))
      = IEEE.of_Z IEEE.binary32 450).
Proof.
  rewrite readMeasurement_run. cbv zeta.
  change (address_frame SCD30_READ_MEASUREMENT) with [0x03; 0x00].
  rewrite Hack. cbn [acked]. unfold reply_in, written. cbn [wire history].
  rewrite Hack. change (Z.to_nat 18) with 18%nat. rewrite Hframe.
  rewrite decode_full_frame by exact Hbytes.
  cbn [result after fst snd this co2 temperature humidity tempCO2 tempTemperature
       tempHumidity].
  split; [reflexivity|]. do 3 (split; [reflexivity|]). split.
  - intros v Hv Hn.
    repeat split; intros ->; apply b32_of_bits_of_b32; assumption.
  - intros -> -> -> ->. reflexivity.
Qed.

(** C1, as the code has it: when the read-measurement command is
    acknowledged and no byte comes back, [readMeasurement] returns [true]
    and overwrites the three cached values with the all-zero pattern (0.0);
    it returns [false] exactly when the command is not acknowledged, and
    then the cache keeps its values. *)
Theorem readMeasurement_without_reply (w : World) :
  let st := dev_ack dev (history (wire w)) SCD30_I2C_ADDRESS [0x03; 0x00] in
  let got :=
    firstn 18
      (dev_reply dev
         (history (wire w) ++ [BusWrite SCD30_I2C_ADDRESS [0x03; 0x00] TWI_OK])
         SCD30_I2C_ADDRESS 18) in
  (result (readMeasurement dev w) = false <-> st <> TWI_OK)
  /\ (st <> TWI_OK -> this (after (readMeasurement dev w)) = this w)
  /\ (st = TWI_OK -> got = [] ->
      result (readMeasurement dev w) = true
      /\ this (after (readMeasurement dev w)) = mkSCD30 0 0 0).
Proof.
  intros st got. rewrite readMeasurement_run. cbv zeta.
  change (address_frame SCD30_READ_MEASUREMENT) with [0x03; 0x00].
  fold st. split; [|split].
  - destruct st eqn:E; cbn [acked];
      try (split; [intros _; discriminate|reflexivity]).
    destruct (measurement_of _) as [t left]. split; [discriminate|congruence].
  - intros Hst. destruct st; try congruence; reflexivity.
  - intros Hst Hgot. unfold got in Hgot. rewrite Hst. cbn [acked].
    unfold reply_in, written. cbn [wire history]. fold st. rewrite Hst.
    change (Z.to_nat 18) with 18%nat. rewrite Hgot. split; reflexivity.
Qed.

End Measurement.

(** ** The lazy accessors *)

Section Accessors.

Variable dev : Device.
Variable double : IEEE.format.

Lemma readRegister_keeps_cache (a : Z) (w : World) :
  this (after (readRegister dev a w)) = this w.
Proof.
  rewrite readRegister_run. cbv zeta. now destruct (acked _).
Qed.

Lemma readRegister_issued (a : Z) (w : World) :
  let st := dev_ack dev (history (wire w)) SCD30_I2C_ADDRESS (address_frame a) in
  issued (readRegister dev a) w =
  BusWrite SCD30_I2C_ADDRESS (address_frame a) st
  :: (if acked st
      then [BusRead SCD30_I2C_ADDRESS 2 (reply_in dev (written dev w (address_frame a)) 2)]
      else []).
Proof.
  intros st. unfold issued. rewrite readRegister_run. cbv zeta. fold st.
  destruct (acked st); cbn [after snd requested written wire history].
  - rewrite <- app_assoc. apply skipn_app_exact.
  - apply skipn_app_exact.
Qed.

Lemma dataAvailable_run (w : World) :
  dataAvailable dev w =
  (result (readRegister dev SCD30_GET_READY_STATUS w) =? 1,
   after (readRegister dev SCD30_GET_READY_STATUS w)).
Proof.
  unfold dataAvailable, bind, result, after.
  destruct (readRegister dev SCD30_GET_READY_STATUS w) as [r w1]. cbn [fst snd].
  now destruct (r =? 1).
Qed.

Lemma dataAvailable_no_measurement_read (w : World) :
  existsb is_measurement_read (issued (dataAvailable dev) w) = false.
Proof.
  unfold issued. rewrite dataAvailable_run.
  change (after (?b, ?x)) with x.
  pose proof (readRegister_issued SCD30_GET_READY_STATUS w) as H.
  unfold issued in H. cbv zeta in H. rewrite H.
  now destruct (acked _).
Qed.

Lemma accessor_run {A : Type} (view : SCD30 -> A) (w : World) :
  (ready <- dataAvailable dev ;;
   (if ready then readMeasurement dev ;; ret tt else ret tt) ;;
   s <- get_this ;;
   ret (view s)) w
  = (view (this (settled dev w)), settled dev w).
Proof.
  unfold settled, bind, result, after, get_this, ret.
  destruct (dataAvailable dev w) as [ready w1]. cbn [fst snd].
  destruct ready; [|reflexivity].
  now destruct (readMeasurement dev w1) as [ok w2].
Qed.

(** C3: every lazy accessor polls the ready-status register first.  When
    the poll reports not ready (the register did not read as 1) the
    accessor answers from the cache as it was, and the poll is all that
    went over the bus: no read-measurement command, no request for a frame.
    When the poll reports ready, the accessor runs [readMeasurement] and
    answers from the cache that it leaves. *)
Theorem lazy_accessors (w : World) :
  let polled := dataAvailable dev w in
  let stale := after polled in
  let fresh := after (readMeasurement dev stale) in
  (result polled = true <-> result (readRegister dev SCD30_GET_READY_STATUS w) = 1)
  /\ (result polled = false ->
      this stale = this w
      /\ existsb is_measurement_read (issued (dataAvailable dev) w) = false
      /\ getCO2 dev w = (IEEE.to_uint16 (IEEE.b32_of_bits (co2 (this w))), stale)
      /\ getHumidity dev w = (IEEE.b32_of_bits (humidity (this w)), stale)
      /\ getTemperatureC dev w = (IEEE.b32_of_bits (temperature (this w)), stale)
      /\ getTemperatureF dev double w
         = (fahrenheit double (IEEE.b32_of_bits (temperature (this w))), stale)
      /\ getTemperatureK dev double w
         = (kelvin double (IEEE.b32_of_bits (temperature (this w))), stale))
  /\ (result polled = true ->
      getCO2 dev w = (IEEE.to_uint16 (IEEE.b32_of_bits (co2 (this fresh))), fresh)
      /\ getHumidity dev w = (IEEE.b32_of_bits (humidity (this fresh)), fresh)
      /\ getTemperatureC dev w = (IEEE.b32_of_bits (temperature (this fresh)), fresh)
      /\ getTemperatureF dev double w
         = (fahrenheit double (IEEE.b32_of_bits (temperature (this fresh))), fresh)
      /\ getTemperatureK dev double w
         = (kelvin double (IEEE.b32_of_bits (temperature (this fresh))), fresh)).
Proof.
  intros polled stale fresh.
  unfold getCO2, getHumidity, getTemperatureC, getTemperatureF, getTemperatureK.
  rewrite !accessor_run. unfold settled. fold polled. fold stale. fold fresh.
  split; [|split].
  - unfold polled. rewrite dataAvailable_run. cbn [result fst]. apply Z.eqb_eq.
  - intros Hp. rewrite Hp.
    assert (this stale = this w) as Hsame.
    { unfold stale, polled. rewrite dataAvailable_run. cbn [after snd].
      apply readRegister_keeps_cache. }
    rewrite Hsame. repeat split. apply dataAvailable_no_measurement_read.
  - intros Hp. rewrite Hp. repeat split.
Qed.

(** C8: over one and the same world, [getTemperatureF] polls and
    refreshes exactly as [getTemperatureC] does and returns that Celsius
    value times 1.8 plus 32, and [getTemperatureK] returns it plus 273.15,
    the arithmetic being done in [double] and the result narrowed to
    [float].  The conversion happens on the value being returned: the cache
    still holds the Celsius value.  Nothing restricts the sign of the cached
    temperature. *)
Theorem temperature_conversions (w : World) :
  let celsius := getTemperatureC dev w in
  getTemperatureF dev double w
  = (IEEE.convert IEEE.binary32
       (IEEE.add double
          (IEEE.mul double (IEEE.convert double (result celsius))
             (IEEE.lit double 18 1))
          (IEEE.of_Z double 32)),
     after celsius)
  /\ getTemperatureK dev double w
     = (IEEE.convert IEEE.binary32
          (IEEE.add double (IEEE.convert double (result celsius))
             (IEEE.lit double 27315 2)),
        after celsius)
  /\ result celsius
     = IEEE.b32_of_bits (temperature (this (after (getTemperatureF dev double w))))
  /\ result celsius
     = IEEE.b32_of_bits (temperature (this (after (getTemperatureK dev double w)))).
Proof.
  intros celsius. unfold celsius.
  unfold getTemperatureC, getTemperatureF, getTemperatureK.
  rewrite !accessor_run. repeat split.
Qed.

Lemma trunc_quot (s : bool) (m : positive) (e : Z) :
  IEEE.trunc (S754_finite s m e)
  = Some (Z.quot (cond_Zopp s (Z.pos m) * 2 ^ Z.max e 0) (2 ^ Z.max (- e) 0)).
Proof.
  unfold IEEE.trunc. f_equal. destruct e as [|p|p].
  - cbn [Z.max Z.opp Z.compare]. change (2 ^ 0) with 1.
    rewrite Z.mul_1_r, Z.quot_1_r. reflexivity.
  - rewrite Z.max_l by lia. rewrite (Z.max_r (- Z.pos p)) by lia.
    change (2 ^ 0) with 1. rewrite Z.quot_1_r.
    destruct s; cbn [cond_Zopp]; lia.
  - rewrite Z.max_r by lia. rewrite Z.max_l by lia.
    change (2 ^ 0) with 1. rewrite Z.mul_1_r.
    assert (0 < 2 ^ (- Z.neg p)) as Hpow by (apply Z.pow_pos_nonneg; lia).
    destruct s; cbn [cond_Zopp].
    + rewrite Z.quot_opp_l by lia. rewrite Z.quot_div_nonneg by lia. reflexivity.
    + rewrite Z.quot_div_nonneg by lia. reflexivity.
Qed.

(** C10: [getCO2] returns a 16-bit unsigned integer, the cached [float]
    converted on return: a finite value (-1)^s * m * 2^e is divided out
    with rounding towards zero, so its fractional part is dropped (the
    conversion is defined when the quotient fits 16 bits), and whatever is
    returned lies in 0 .. 65535.  [getHumidity] and [getTemperatureC]
    return the cached value as it is. *)
Theorem getCO2_truncates (w : World) :
  let cached := IEEE.b32_of_bits (co2 (this (after (getCO2 dev w)))) in
  result (getCO2 dev w) = IEEE.to_uint16 cached
  /\ (forall (s : bool) (m : positive) (e : Z),
        let q := Z.quot (cond_Zopp s (Z.pos m) * 2 ^ Z.max e 0) (2 ^ Z.max (- e) 0) in
        cached = S754_finite s m e -> 0 <= q < 2 ^ 16 ->
        result (getCO2 dev w) = Some q)
  /\ (forall s : bool, cached = S754_zero s -> result (getCO2 dev w) = Some 0)
  /\ (forall n : Z, result (getCO2 dev w) = Some n -> 0 <= n < 2 ^ 16)
  /\ result (getHumidity dev w)
     = IEEE.b32_of_bits (humidity (this (after (getHumidity dev w))))
  /\ result (getTemperatureC dev w)
     = IEEE.b32_of_bits (temperature (this (after (getTemperatureC dev w)))).
Proof.
  intros cached. unfold cached, getCO2, getHumidity, getTemperatureC.
  rewrite !accessor_run. cbn [result after fst snd].
  split; [reflexivity|split; [|split; [|split; [|split; reflexivity]]]].
  - intros s m e Hc Hq. rewrite Hc. unfold IEEE.to_uint16.
    rewrite trunc_quot.
    set (q := Z.quot (cond_Zopp s (Z.pos m) * 2 ^ Z.max e 0) (2 ^ Z.max (- e) 0)) in *.
    destruct (Z.leb_spec 0 q); try lia. destruct (Z.ltb_spec q (2 ^ 16)); try lia.
    reflexivity.
  - intros s Hc. rewrite Hc. reflexivity.
  - intros n. unfold IEEE.to_uint16.
    destruct (IEEE.trunc _) as [k|]; [|discriminate].
    destruct (Z.leb_spec 0 k); destruct (Z.ltb_spec k (2 ^ 16)); cbn [andb];
      try discriminate.
    intros [= <-]. lia.
Qed.

End Accessors.

Lemma setForcedRecalibrationValue_range_witness :
  400 <= 1500 <= 2000
  /\ issued (setForcedRecalibrationValue mute_device
               1500) power_on
     = [BusWrite 0x61 [0x52; 0x04; 0x05; 0xDC; computeCRC8 [0x05; 0xDC] 2] TWI_OK].
Proof.
  assert (400 <= 1500 <= 2000) as H by lia. split; [exact H|].
  exact (proj1 (proj2 (setForcedRecalibrationValue_range mute_device 1500
                         power_on)) H).
Defined.

Lemma setAmbientPressure_coerces_witness :
  700 <= 1000 <= 1200
  /\ issued (setAmbientPressure mute_device 1000) power_on
     = [BusWrite 0x61 [0x00; 0x10; 0x03; 0xE8; 0xD4] TWI_OK].
Proof.
  split; [lia|].
  pose proof (setAmbientPressure_coerces mute_device 1000 power_on) as H.
  cbv zeta in H. exact (proj1 H).
Defined.

Lemma begin_starts_measuring_witness :
  result (begin absent_device power_on) = false
  /\ issued (begin absent_device) power_on =
     [BusBegin; BusWrite 0x61 [0x00; 0x10; 0x00; 0x00; 0x81] TWI_NACK_ADDRESS].
Proof.
  apply (proj1 (proj2 (begin_starts_measuring absent_device power_on))).
  discriminate.
Defined.

Lemma readRegister_result_witness :
  result (readRegister (scripted_device 0x0102 []) SCD30_GET_READY_STATUS power_on)
  = 256 * 1 + 2.
Proof.
  refine (proj2 (proj1 (proj2 (proj2
            (readRegister_result (scripted_device 0x0102 [])
               SCD30_GET_READY_STATUS power_on)))
            eq_refl 1 2 eq_refl _ _)); unfold is_u8; lia.
Defined.

Lemma readMeasurement_decodes_frame_witness :
  co2 (this (after (readMeasurement
                      (scripted_device 1
                         [0x43; 0xE1; 0x31; 0x00; 0x00; 0x81;
                          0x41; 0xA0; 0x2A; 0x00; 0x00; 0x81;
                          0x42; 0x48; 0xB7; 0x00; 0x00; 0x81])
                      power_on)))
  = be32 0x43 0xE1 0x00 0x00.
Proof.
  refine (proj1 (proj2
            (readMeasurement_decodes_frame
               (scripted_device 1
                  [0x43; 0xE1; 0x31; 0x00; 0x00; 0x81;
                   0x41; 0xA0; 0x2A; 0x00; 0x00; 0x81;
                   0x42; 0x48; 0xB7; 0x00; 0x00; 0x81])
               power_on
               0x43 0xE1 0x31 0x00 0x00 0x81 0x41 0xA0 0x2A 0x00 0x00 0x81
               0x42 0x48 0xB7 0x00 0x00 0x81 eq_refl eq_refl _))).
  repeat constructor; unfold is_u8; lia.
Defined.

(** C1 as the specification states it fails: the command is acknowledged,
    no byte comes back, the result is [true], and the cache has not kept
    its values. *)
Lemma readMeasurement_retains_cache_counterexample :
  dev_ack mute_device (history (wire warm_world)) SCD30_I2C_ADDRESS [0x03; 0x00] = TWI_OK
  /\ firstn 18
       (dev_reply mute_device
          (history (wire warm_world)
           ++ [BusWrite SCD30_I2C_ADDRESS [0x03; 0x00] TWI_OK])
          SCD30_I2C_ADDRESS 18) = []
  /\ result (readMeasurement mute_device warm_world) = true
  /\ this (after (readMeasurement mute_device warm_world)) = mkSCD30 0 0 0
  /\ this (after (readMeasurement mute_device warm_world)) <> this warm_world.
Proof.
  repeat split. discriminate.
Qed.

Lemma readMeasurement_without_reply_witness :
  result (readMeasurement mute_device warm_world) = true
  /\ this (after (readMeasurement mute_device warm_world))
     = mkSCD30 0 0 0.
Proof.
  exact (proj2 (proj2 (readMeasurement_without_reply mute_device
                         warm_world))
           eq_refl eq_refl).
Defined.

(** No sensor answers, so the poll reports not ready and the accessor
    answers 450 from the cache. *)
Lemma lazy_accessors_witness :
  result (dataAvailable absent_device warm_world) = false
  /\ result (getCO2 absent_device warm_world) = Some 450.
Proof.
  split; [reflexivity|].
  exact (f_equal fst
           (proj1 (proj2 (proj2
              (proj1 (proj2 (lazy_accessors absent_device IEEE.binary64
                               warm_world))
                 eq_refl))))).
Defined.

Lemma getCO2_truncates_witness :
  result (getCO2 (scripted_device 1 frame_450_75) power_on) = Some 450.
Proof.
  refine (proj1 (proj2 (getCO2_truncates (scripted_device 1 frame_450_75) power_on))
            false 14770176%positive (-15) eq_refl _).
  vm_compute. split; [discriminate|reflexivity].
Defined.

(** ** Worked examples *)

(** The literals 1.8 and 273.15 as [float]s have the bit patterns a C++
    compiler gives them. *)
Example lit_1_8_binary32 :
  IEEE.lit IEEE.binary32 18 1 = IEEE.b32_of_bits 0x3FE66666
  /\ IEEE.lit IEEE.binary32 27315 2 = IEEE.b32_of_bits 0x43889333.
Proof. split; reflexivity. Qed.

(** 450.0 is encoded as 0x43E10000, the word made of 0x43 0xE1 0x00 0x00. *)
Example encoding_of_450 :
  IEEE.bits_of_b32 (IEEE.of_Z IEEE.binary32 450) = be32 0x43 0xE1 0x00 0x00
  /\ valid_binary 24 128 (IEEE.of_Z IEEE.binary32 450) = true.
Proof. split; reflexivity. Qed.

(** A cached -40 degrees Celsius reads as -40 degrees Fahrenheit and as
    233.15 Kelvin, whichever the width of [double]. *)
Example minus_40_degrees :
  let w := mkWorld (mkTwoWire 0 [] [] []) (mkSCD30 0 0xC2200000 0) in
  result (getTemperatureC absent_device w) = S754_finite true 10485760 (-18)
  /\ result (getTemperatureF absent_device IEEE.binary32 w) = IEEE.b32_of_bits 0xC2200000
  /\ result (getTemperatureF absent_device IEEE.binary64 w) = IEEE.b32_of_bits 0xC2200000
  /\ result (getTemperatureK absent_device IEEE.binary32 w) = IEEE.b32_of_bits 0x43692666
  /\ result (getTemperatureK absent_device IEEE.binary64 w) = IEEE.b32_of_bits 0x43692666.
Proof. cbv zeta. repeat split; vm_compute; reflexivity. Qed.

(** A full exchange: the sensor reports ready and sends a frame. *)
Example ready_then_read :
  getCO2 (scripted_device 1 frame_450_75) power_on
  = (Some 450,
     mkWorld
       (mkTwoWire 0x61 [] []
          [BusWrite 0x61 [0x02; 0x02] TWI_OK;
           BusRead 0x61 2 [0x00; 0x01];
           BusWrite 0x61 [0x03; 0x00] TWI_OK;
           BusRead 0x61 18 frame_450_75])
       (mkSCD30 0x43E16000 0x41A00000 0x42480000)).
Proof. vm_compute. reflexivity. Qed.

(** A reply of a single byte: [Wire.read()] answers -1 for the second,
    which the driver takes as 0xFF. *)
Example readRegister_short_reply :
  result (readRegister (mkDevice (fun _ _ _ => TWI_OK) (fun _ _ _ => [0x12]))
            SCD30_GET_READY_STATUS power_on) = 0x12FF.
Proof. reflexivity. Qed.

(** * Further properties of the driver *)

(** ** The checksum as an error-detecting code *)

Section ChecksumCode.

Lemma crc_bytes_fold (data : list Z) (n : nat) : forall (x : nat) (crc : Z),
  (x + n <= length data)%nat ->
  crc_bytes data x n crc = fold_left crc_step (firstn n (skipn x data)) crc.
Proof.
  induction n as [|n IH]; intros x crc Hx.
  - reflexivity.
  - cbn [crc_bytes]. rewrite (skipn_nth_cons data x) by lia.
    cbn [firstn fold_left]. rewrite IH by lia. reflexivity.
Qed.

(** Over a whole array, [computeCRC8] is a left fold of [crc_step]. *)
Lemma computeCRC8_fold (data : list Z) :
  computeCRC8 data (Z.of_nat (length data)) = fold_left crc_step data 0xFF.
Proof.
  unfold computeCRC8. rewrite Nat2Z.id, crc_bytes_fold by (simpl; lia).
  cbn [skipn]. now rewrite firstn_all.
Qed.

Lemma crc_step_u8 (crc d : Z) : is_u8 (crc_step crc d).
Proof. unfold crc_step. apply crc_bits_clock, u8_range. Qed.


Lemma all_bytes_pairs (P : Z -> Z -> bool) :
  forallb (fun a => forallb (P a) all_bytes) all_bytes = true ->
  forall a b : Z, is_u8 a -> is_u8 b -> P a b = true.
Proof.
  intros H a b Ha Hb. rewrite forallb_forall in H.
  specialize (H a (in_all_bytes a Ha)). rewrite forallb_forall in H.
  exact (H b (in_all_bytes b Hb)).
Qed.

(** Equalities between XOR expressions, bit by bit. *)
Ltac xor_bits :=
  apply Z.bits_inj'; intros ?i ?Hi;
  rewrite ?Z.lxor_spec, ?Z.bits_0;
  repeat match goal with
         | |- context [Z.testbit ?a ?i] => destruct (Z.testbit a i)
         end;
  reflexivity.

Lemma u8_lxor (a b : Z) : u8 (Z.lxor a b) = Z.lxor (u8 a) (u8 b).
Proof.
  unfold u8. apply Z.bits_inj'. intros i Hi.
  destruct (Z.lt_ge_cases i 8) as [Hlt|Hge].
  - rewrite Z.lxor_spec, !Z.mod_pow2_bits_low, Z.lxor_spec by lia. reflexivity.
  - rewrite Z.lxor_spec, !Z.mod_pow2_bits_high by lia. reflexivity.
Qed.

Lemma lxor_u8 (a b : Z) : is_u8 a -> is_u8 b -> is_u8 (Z.lxor a b).
Proof.
  intros Ha Hb. rewrite <- (u8_small a Ha), <- (u8_small b Hb), <- u8_lxor.
  apply u8_range.
Qed.

Lemma land_bit7 (c : Z) : Z.land c 0x80 = if Z.testbit c 7 then 0x80 else 0.
Proof.
  change 0x80 with (2 ^ 7). apply Z.bits_inj'. intros i Hi.
  rewrite Z.land_spec, Z.pow2_bits_eqb by lia.
  destruct (Z.eqb_spec 7 i) as [<-|Hne].
  - destruct (Z.testbit c 7); [now rewrite Z.pow2_bits_true by lia|now rewrite Z.bits_0].
  - rewrite andb_false_r.
    destruct (Z.testbit c 7); [now rewrite Z.pow2_bits_false by lia|now rewrite Z.bits_0].
Qed.

(** The shift of the code, with its test read as bit 7. *)
Lemma crc_shift_bit7 (c : Z) :
  crc_shift c = u8 (Z.lxor (Z.shiftl c 1) (if Z.testbit c 7 then generator else 0)).
Proof.
  unfold crc_shift. rewrite land_bit7.
  destruct (Z.testbit c 7); cbn [negb Z.eqb]; [reflexivity|].
  now rewrite Z.lxor_0_r.
Qed.

(** The shift is linear over XOR. *)
Lemma crc_shift_xor (a b : Z) :
  crc_shift (Z.lxor a b) = Z.lxor (crc_shift a) (crc_shift b).
Proof.
  rewrite !crc_shift_bit7, <- u8_lxor. f_equal.
  rewrite Z.shiftl_lxor, Z.lxor_spec.
  destruct (Z.testbit a 7), (Z.testbit b 7); cbn [xorb]; xor_bits.
Qed.

Lemma crc_bits_xor (n : nat) : forall a b : Z,
  crc_bits n (Z.lxor a b) = Z.lxor (crc_bits n a) (crc_bits n b).
Proof.
  induction n as [|n IH]; intros a b; [reflexivity|].
  cbn [crc_bits]. now rewrite crc_shift_xor, IH.
Qed.



Lemma crc_step_small (crc d : Z) :
  is_u8 crc -> is_u8 d -> crc_step crc d = crc_bits 8 (Z.lxor crc d).
Proof.
  intros Hc Hd. unfold crc_step. now rewrite u8_small by now apply lxor_u8.
Qed.




Lemma fold_crc_step_residue (l : list Z) (init : Z) :
  fold_left crc_step (l ++ [fold_left crc_step l init]) init = 0.
Proof.
  rewrite fold_left_app. cbn [fold_left].
  unfold crc_step at 1. rewrite Z.lxor_nilpotent. reflexivity.
Qed.



Lemma popcount8_nonneg (n : Z) : 0 <= popcount8 n.
Proof.
  unfold popcount8. cbn [fold_right].
  repeat apply Z.add_nonneg_nonneg; try lia;
    match goal with |- 0 <= Z.b2z ?b => generalize b; intros []; cbn; lia end.
Qed.

(** The checksum of two bytes, and what a change of the bytes does to it. *)
Lemma computeCRC8_two (x y : Z) :
  is_u8 x -> is_u8 y ->
  computeCRC8 [x; y] 2 = crc_bits 8 (Z.lxor (crc_bits 8 (Z.lxor 0xFF x)) y).
Proof.
  intros Hx Hy. change 2 with (Z.of_nat (length [x; y])).
  rewrite computeCRC8_fold. cbn [fold_left].
  assert (is_u8 0xFF) as Hi by (unfold is_u8; lia).
  rewrite (crc_step_small 0xFF x Hi Hx).
  apply crc_step_small; [|exact Hy].
  rewrite <- (crc_step_small 0xFF x Hi Hx). apply crc_step_u8.
Qed.

Lemma computeCRC8_two_delta (x y x' y' : Z) :
  is_u8 x -> is_u8 y -> is_u8 x' -> is_u8 y' ->
  computeCRC8 [x'; y'] 2
  = Z.lxor (computeCRC8 [x; y] 2) (crc_delta (Z.lxor x x') (Z.lxor y y')).
Proof.
  intros Hx Hy Hx' Hy'. rewrite !computeCRC8_two by assumption.
  unfold crc_delta. rewrite <- (crc_bits_xor 8 (Z.lxor _ y)). f_equal.
  replace (Z.lxor 0xFF x') with (Z.lxor (Z.lxor 0xFF x) (Z.lxor x x')) by xor_bits.
  rewrite (crc_bits_xor 8 (Z.lxor 0xFF x)). xor_bits.
Qed.

(** X3: the two argument bytes and their checksum form a code of distance
    4: however one, two or three of those 24 bits are flipped, the checksum
    no longer fits the bytes. *)
Theorem computeCRC8_detects_three_bit_errors (x y x' y' c' : Z)
  (Hx : is_u8 x) (Hy : is_u8 y) (Hx' : is_u8 x') (Hy' : is_u8 y') (Hc' : is_u8 c')
  (Hflips :
     1 <= popcount8 (Z.lxor x x') + popcount8 (Z.lxor y y')
          + popcount8 (Z.lxor (computeCRC8 [x; y] 2) c') <= 3) :
  computeCRC8 [x'; y'] 2 <> c'.
Proof.
  intros Heq. rewrite (computeCRC8_two_delta x y x' y') in Heq by assumption.
  assert (Z.lxor (computeCRC8 [x; y] 2) c' = crc_delta (Z.lxor x x') (Z.lxor y y'))
    as He3 by (rewrite <- Heq; xor_bits).
  rewrite He3 in Hflips.
  assert (forallb (fun e1 => forallb
            (fun e2 =>
               (4 <=? popcount8 e1 + popcount8 e2)
               || (e1 =? 0) && (e2 =? 0)
               || (4 <=? popcount8 e1 + popcount8 e2 + popcount8 (crc_delta e1 e2)))
            all_bytes) all_bytes = true) as Hall by (vm_compute; reflexivity).
  pose proof (all_bytes_pairs _ Hall _ _ (lxor_u8 x x' Hx Hx') (lxor_u8 y y' Hy Hy'))
    as H. cbv beta in H.
  pose proof (popcount8_nonneg (crc_delta (Z.lxor x x') (Z.lxor y y'))) as Hpos.
  apply orb_true_iff in H. destruct H as [H|H].
  - apply orb_true_iff in H. destruct H as [H|H].
    + apply Z.leb_le in H. lia.
    + apply andb_true_iff in H. destruct H as [H1 H2].
      apply Z.eqb_eq in H1. apply Z.eqb_eq in H2. rewrite H1, H2 in Hflips.
      vm_compute in Hflips. destruct Hflips as [Hlo _]. now apply Hlo.
  - apply Z.leb_le in H. lia.
Qed.

End ChecksumCode.

(** ** Sending commands *)

Lemma u16_bytes (n : Z) :
  is_u16 n -> is_u8 (n / 256) /\ is_u8 (n mod 256) /\ 256 * (n / 256) + n mod 256 = n.
Proof.
  unfold is_u16, is_u8. change (2 ^ 16) with 65536. change (2 ^ 8) with 256.
  intros Hn. Z.div_mod_to_equations. lia.
Qed.

Lemma frame_residue (hi lo : Z) :
  computeCRC8 [hi; lo; computeCRC8 [hi; lo] 2] 3 = 0.
Proof.
  change 3 with (Z.of_nat (length ([hi; lo] ++ [computeCRC8 [hi; lo] 2]))).
  change 2 with (Z.of_nat (length [hi; lo])).
  rewrite !computeCRC8_fold. apply fold_crc_step_residue.
Qed.

Section Commands.

Variable dev : Device.

(** X4: for a 16-bit command and argument, [sendCommand] makes exactly one
    write transaction of five bytes, each within 0..255: command and
    argument most significant byte first, then the checksum.  The argument
    can be read back from bytes 2 and 3, the last three bytes pass the
    receiver's checksum test, the result tells whether the sensor
    acknowledged, and neither the cache nor the receive buffer changes. *)
Theorem sendCommand_frame (command argument : Z) (w : World)
  (Hc : is_u16 command) (Ha : is_u16 argument) :
  let hi := argument / 256 in
  let lo := argument mod 256 in
  let payload := [command / 256; command mod 256; hi; lo; computeCRC8 [hi; lo] 2] in
  let st := dev_ack dev (history (wire w)) SCD30_I2C_ADDRESS payload in
  sendCommand dev command argument w
  = (acked st,
     mkWorld
       (mkTwoWire SCD30_I2C_ADDRESS [] (rxBuffer (wire w))
          (history (wire w) ++ [BusWrite SCD30_I2C_ADDRESS payload st]))
       (this w))
  /\ Forall is_u8 payload
  /\ 256 * hi + lo = argument
  /\ computeCRC8 [hi; lo; computeCRC8 [hi; lo] 2] 3 = 0.
Proof.
  intros hi lo payload st.
  destruct (u16_bytes command Hc) as (Hc1 & Hc2 & _).
  destruct (u16_bytes argument Ha) as (Ha1 & Ha2 & Ha3).
  split; [|split; [|split]].
  - rewrite sendCommand_run, command_frame_bytes by assumption. reflexivity.
  - unfold payload.
    repeat (apply Forall_cons; [first [assumption|apply computeCRC8_two_u8]|]).
    apply Forall_nil.
  - exact Ha3.
  - apply frame_residue.
Qed.

(** X5: a command without argument is one write transaction of the two
    command bytes and no checksum; [stopMeasuring] sends 0x01 0x04 and
    [softReset] sends 0xD3 0x04, and each returns whether it was
    acknowledged.  A soft reset leaves the driver's cache as it was: an
    accessor called after it still answers with the measurement taken
    before the reset, as long as the sensor does not report new data. *)
Theorem commands_without_argument (command : Z) (w : World) (Hc : is_u16 command) :
  let sent (payload : list Z) :=
    (acked (dev_ack dev (history (wire w)) SCD30_I2C_ADDRESS payload),
     mkWorld
       (mkTwoWire SCD30_I2C_ADDRESS [] (rxBuffer (wire w))
          (history (wire w)
           ++ [BusWrite SCD30_I2C_ADDRESS payload
                 (dev_ack dev (history (wire w)) SCD30_I2C_ADDRESS payload)]))
       (this w)) in
  sendCommand0 dev command w = sent [command / 256; command mod 256]
  /\ stopMeasuring dev w = sent [0x01; 0x04]
  /\ softReset dev w = sent [0xD3; 0x04]
  /\ (result (dataAvailable dev (after (softReset dev w))) = false ->
      result (getCO2 dev (after (softReset dev w)))
      = IEEE.to_uint16 (IEEE.b32_of_bits (co2 (this w)))
      /\ result (getTemperatureC dev (after (softReset dev w)))
         = IEEE.b32_of_bits (temperature (this w))
      /\ result (getHumidity dev (after (softReset dev w)))
         = IEEE.b32_of_bits (humidity (this w))).
Proof.
  intros sent. split; [|split; [|split]].
  - rewrite sendCommand0_run, address_frame_bytes by assumption. reflexivity.
  - unfold stopMeasuring. rewrite sendCommand0_run. reflexivity.
  - unfold softReset. rewrite sendCommand0_run. reflexivity.
  - intros Hpoll. unfold getCO2, getTemperatureC, getHumidity.
    rewrite !accessor_run. unfold settled. rewrite Hpoll.
    cbn [result fst].
    rewrite dataAvailable_run. change (after (?b, ?x)) with x.
    rewrite readRegister_keeps_cache.
    unfold softReset. rewrite sendCommand0_run. repeat split.
Qed.

Lemma setAltitudeCompensation_run (altitude : Z) (w : World) :
  after (setAltitudeCompensation dev altitude w) =
  written dev w (command_frame SCD30_SET_ALTITUDE_COMPENSATION altitude).
Proof.
  unfold setAltitudeCompensation, bind. rewrite sendCommand_run. reflexivity.
Qed.

(** X6: [setMeasurementInterval], [setAltitudeCompensation] and
    [beginMeasuring] check nothing: whatever 16-bit value they are given,
    0 and 65535 included, goes out in one command frame, unchanged. *)
Theorem setters_forward_any_argument (n : Z) (w : World) (Hn : is_u16 n) :
  let frame (hi lo : Z) :=
    [hi; lo; n / 256; n mod 256; computeCRC8 [n / 256; n mod 256] 2] in
  let sent (payload : list Z) :=
    [BusWrite SCD30_I2C_ADDRESS payload
       (dev_ack dev (history (wire w)) SCD30_I2C_ADDRESS payload)] in
  issued (setMeasurementInterval dev n) w = sent (frame 0x46 0x00)
  /\ issued (setAltitudeCompensation dev n) w = sent (frame 0x51 0x02)
  /\ issued (beginMeasuring dev n) w = sent (frame 0x00 0x10)
  /\ result (beginMeasuring dev n w)
     = acked (dev_ack dev (history (wire w)) SCD30_I2C_ADDRESS (frame 0x00 0x10)).
Proof.
  intros frame sent.
  assert (forall c : Z, is_u16 c ->
            command_frame c n = frame (c / 256) (c mod 256)) as Hframe
    by (intros c Hc; now rewrite command_frame_bytes).
  split; [|split; [|split]].
  - rewrite (issued_written dev _ _ _ (setMeasurementInterval_run dev n w)).
    rewrite Hframe by (unfold is_u16, SCD30_SET_MEASUREMENT_INTERVAL; lia).
    reflexivity.
  - rewrite (issued_written dev _ _ _ (setAltitudeCompensation_run n w)).
    rewrite Hframe by (unfold is_u16, SCD30_SET_ALTITUDE_COMPENSATION; lia).
    reflexivity.
  - assert (after (beginMeasuring dev n w)
            = written dev w (command_frame SCD30_START_CONTINUOUS_MEASUREMENT n)) as Hb
      by (unfold beginMeasuring; now rewrite sendCommand_run).
    rewrite (issued_written dev _ _ _ Hb).
    rewrite Hframe by (unfold is_u16, SCD30_START_CONTINUOUS_MEASUREMENT; lia).
    reflexivity.
  - unfold beginMeasuring. rewrite sendCommand_run. cbn [result fst].
    rewrite Hframe by (unfold is_u16, SCD30_START_CONTINUOUS_MEASUREMENT; lia).
    reflexivity.
Qed.

(** X7: [setAmbientPressure] is [beginMeasuring] behind a range guard: for
    700..1200 it leaves the bus as [beginMeasuring] with the same pressure
    does, and otherwise as [beginMeasuring] with 0 does.  The guard is in
    [setAmbientPressure] only: for a pressure outside the range and not 0,
    [beginMeasuring] sends another frame than [setAmbientPressure]. *)
Theorem setAmbientPressure_is_guarded_beginMeasuring (p : Z) (w : World) :
  (700 <= p <= 1200 ->
   after (setAmbientPressure dev p w) = after (beginMeasuring dev p w))
  /\ (~ 700 <= p <= 1200 ->
      after (setAmbientPressure dev p w) = after (beginMeasuring0 dev w))
  /\ (~ 700 <= p <= 1200 -> is_u16 p -> p <> 0 ->
      issued (beginMeasuring dev p) w <> issued (setAmbientPressure dev p) w).
Proof.
  assert (forall a : Z, after (beginMeasuring dev a w)
            = written dev w (command_frame SCD30_START_CONTINUOUS_MEASUREMENT a)) as Hb
    by (intros a; unfold beginMeasuring; now rewrite sendCommand_run).
  pose proof (setAmbientPressure_run dev p w) as Hs.
  split; [|split].
  - intros Hr. rewrite Hs, Hb.
    destruct (Z.leb_spec 700 p); try lia. destruct (Z.leb_spec p 1200); try lia.
    reflexivity.
  - intros Hr. unfold beginMeasuring0. rewrite Hs, Hb.
    destruct (Z.leb_spec 700 p); destruct (Z.leb_spec p 1200); try lia; reflexivity.
  - intros Hr Hp Hp0.
    assert ((if (700 <=? p) && (p <=? 1200) then p else 0) = 0) as Hz
      by (destruct (Z.leb_spec 700 p); destruct (Z.leb_spec p 1200); try lia;
          reflexivity).
    rewrite Hz in Hs.
    rewrite (issued_written dev _ _ _ (Hb p)), (issued_written dev _ _ _ Hs).
    rewrite (command_frame_bytes _ p), (command_frame_bytes _ 0);
      try assumption;
      try (unfold is_u16, SCD30_START_CONTINUOUS_MEASUREMENT; lia).
    intros Heq.
    apply (f_equal (fun l => match l with
                             | BusWrite _ (_ :: _ :: hi :: lo :: _) _ :: _ =>
                                 256 * hi + lo
                             | _ => 0
                             end)) in Heq.
    cbv beta iota in Heq.
    destruct (u16_bytes p Hp) as (_ & _ & Hsum).
    change (0 / 256) with 0 in Heq. change (0 mod 256) with 0 in Heq. lia.
Qed.

End Commands.

(** ** Registers: writing, reading back, polling *)

Lemma u8_idempotent (n : Z) : u8 (u8 n) = u8 n.
Proof. apply u8_small, u8_range. Qed.

(** The value [readRegister] builds is [256 * MSB + LSB] on the bytes as
    narrowed to [uint8_t]. *)
Lemma register_value_bytes (m l : Z) (rest : list Z) :
  register_value (m :: l :: rest) = 256 * u8 m + u8 l.
Proof.
  cbn [register_value].
  pose proof (combine_bytes (u8 m) (u8 l) (u8_range m) (u8_range l)) as H.
  rewrite !u8_idempotent in H. rewrite H. lia.
Qed.

Lemma register_value_single (m : Z) : register_value [m] = 256 * u8 m + 255.
Proof.
  cbn [register_value].
  pose proof (combine_bytes (u8 m) (u8 (-1)) (u8_range m) (u8_range (-1))) as H.
  rewrite !u8_idempotent in H. rewrite H. change (u8 (-1)) with 255. lia.
Qed.

Lemma register_value_u16 (got : list Z) : is_u16 (register_value got).
Proof.
  unfold is_u16. change (2 ^ 16) with 65536.
  destruct got as [|m [|l rest]].
  - cbn. lia.
  - rewrite register_value_single. pose proof (u8_range m) as Hm.
    unfold is_u8 in Hm. change (2 ^ 8) with 256 in Hm. lia.
  - rewrite register_value_bytes. pose proof (u8_range m) as Hm.
    pose proof (u8_range l) as Hl. unfold is_u8 in Hm, Hl.
    change (2 ^ 8) with 256 in Hm, Hl. lia.
Qed.

Section RegisterAccess.

Variable dev : Device.

(** Reading a register back right after it was written, from a device
    that echoes the argument. *)
Lemma register_echo (command argument : Z) (w : World) :
  is_u16 argument -> echoes dev w command argument ->
  result (readRegister dev command (written dev w (command_frame command argument)))
  = argument.
Proof.
  intros Ha [Hack Hreply]. rewrite readRegister_run. cbv zeta.
  unfold reply_in, written. cbn [wire history]. rewrite !Hack.
  cbn [acked result fst]. change (Z.to_nat 2) with 2%nat. rewrite Hreply.
  destruct (u16_bytes argument Ha) as (H1 & H2 & H3).
  rewrite register_value_bytes, !u8_small by assumption. exact H3.
Qed.

(** X8: what [setMeasurementInterval], [setAltitudeCompensation] and
    [setForcedRecalibrationValue] send is what the matching getter returns
    when the sensor hands the register back: the 16-bit value survives the
    split into two bytes and the reassembly unchanged.  A forced
    recalibration value outside 400..2000 is never sent, so the getter
    answers as it did before. *)
Theorem configuration_round_trip (n : Z) (w : World) (Hn : is_u16 n) :
  (echoes dev w SCD30_SET_MEASUREMENT_INTERVAL n ->
   result (getMeasurementInterval dev (after (setMeasurementInterval dev n w))) = n)
  /\ (echoes dev w SCD30_SET_ALTITUDE_COMPENSATION n ->
      result (getAltitudeCompensation dev (after (setAltitudeCompensation dev n w))) = n)
  /\ (400 <= n <= 2000 -> echoes dev w SCD30_SET_FORCED_RECALIBRATION n ->
      result (getForcedRecalibrationValue dev
                (after (setForcedRecalibrationValue dev n w))) = n)
  /\ (~ 400 <= n <= 2000 ->
      getForcedRecalibrationValue dev (after (setForcedRecalibrationValue dev n w))
      = getForcedRecalibrationValue dev w).
Proof.
  split; [|split; [|split]].
  - intros He. rewrite setMeasurementInterval_run.
    unfold getMeasurementInterval. now apply register_echo.
  - intros He. unfold setAltitudeCompensation, bind, after.
    rewrite sendCommand_run. cbn [snd].
    unfold getAltitudeCompensation. now apply register_echo.
  - intros Hr He. rewrite setForcedRecalibrationValue_run.
    destruct (Z.leb_spec 400 n); try lia. destruct (Z.leb_spec n 2000); try lia.
    cbn [andb]. unfold getForcedRecalibrationValue. now apply register_echo.
  - intros Hr. rewrite setForcedRecalibrationValue_run.
    destruct (Z.leb_spec 400 n); destruct (Z.leb_spec n 2000); try lia; reflexivity.
Qed.

(** X9: [enableAutomaticSelfCalibration] writes 1 and
    [disableAutomaticSelfCalibration] writes 0 to register 0x5306, and
    [getAutomaticSelfCalibration] reads them back as [true] and [false].
    The getter also answers [false] when the register cannot be read: a
    failed read looks like a disabled calibration. *)
Theorem automatic_self_calibration_round_trip (w : World) :
  let sent (payload : list Z) :=
    [BusWrite SCD30_I2C_ADDRESS payload
       (dev_ack dev (history (wire w)) SCD30_I2C_ADDRESS payload)] in
  issued (enableAutomaticSelfCalibration dev) w = sent [0x53; 0x06; 0x00; 0x01; 0xB0]
  /\ issued (disableAutomaticSelfCalibration dev) w = sent [0x53; 0x06; 0x00; 0x00; 0x81]
  /\ (echoes dev w SCD30_SET_AUTOMATIC_SELFCALIBRATION 1 ->
      result (getAutomaticSelfCalibration dev
                (after (enableAutomaticSelfCalibration dev w))) = true)
  /\ (echoes dev w SCD30_SET_AUTOMATIC_SELFCALIBRATION 0 ->
      result (getAutomaticSelfCalibration dev
                (after (disableAutomaticSelfCalibration dev w))) = false)
  /\ (dev_ack dev (history (wire w)) SCD30_I2C_ADDRESS [0x53; 0x06] <> TWI_OK ->
      result (getAutomaticSelfCalibration dev w) = false).
Proof.
  intros sent.
  assert (forall a : Z,
            after ((sendCommand dev SCD30_SET_AUTOMATIC_SELFCALIBRATION a ;; ret tt) w)
            = written dev w (command_frame SCD30_SET_AUTOMATIC_SELFCALIBRATION a)) as Hrun
    by (intros a; unfold bind; now rewrite sendCommand_run).
  assert (forall w' : World,
            result (getAutomaticSelfCalibration dev w')
            = (result (readRegister dev SCD30_SET_AUTOMATIC_SELFCALIBRATION w') =? 1))
    as Hget.
  { intros w'. unfold getAutomaticSelfCalibration, bind, result.
    destruct (readRegister dev SCD30_SET_AUTOMATIC_SELFCALIBRATION w') as [r w1].
    cbn [fst]. now destruct (r =? 1). }
  split; [|split; [|split; [|split]]].
  - exact (issued_written dev _ _ _ (Hrun 1)).
  - exact (issued_written dev _ _ _ (Hrun 0)).
  - intros He. unfold enableAutomaticSelfCalibration. rewrite Hrun, Hget.
    rewrite register_echo; [reflexivity|unfold is_u16; lia|exact He].
  - intros He. unfold disableAutomaticSelfCalibration. rewrite Hrun, Hget.
    rewrite register_echo; [reflexivity|unfold is_u16; lia|exact He].
  - intros Hnack. rewrite Hget, readRegister_run. cbv zeta.
    change (address_frame SCD30_SET_AUTOMATIC_SELFCALIBRATION) with [0x53; 0x06].
    destruct (dev_ack dev (history (wire w)) SCD30_I2C_ADDRESS [0x53; 0x06]);
      try congruence; reflexivity.
Qed.

Lemma to_uint16_range (x : spec_float) (n : Z) :
  IEEE.to_uint16 x = Some n -> is_u16 n.
Proof.
  unfold IEEE.to_uint16. destruct (IEEE.trunc x) as [k|]; [|discriminate].
  destruct (Z.leb_spec 0 k); destruct (Z.ltb_spec k (2 ^ 16)); cbn [andb];
    try discriminate.
  intros [= <-]. split; assumption.
Qed.

(** X10: [setTemperatureOffset] sends the offset in hundredths of a
    degree: the [float] product [tempOffset * 100], cut off towards zero
    (not rounded), goes out as the argument of command 0x5403, and
    [getTemperatureOffset] hands back those ticks, not degrees.  So 5.0 is
    sent as 500, while 0.53 is sent as 52.  When the product is -1 or
    below, the conversion to [uint16_t] is undefined: the function has no
    guard against a negative offset. *)
Theorem setTemperatureOffset_ticks (tempOffset : spec_float) (w : World) :
  let product :=
    IEEE.mul IEEE.binary32 tempOffset (IEEE.of_Z IEEE.binary32 100) in
  (forall n : Z, IEEE.to_uint16 product = Some n ->
     let payload :=
       [0x54; 0x03; n / 256; n mod 256; computeCRC8 [n / 256; n mod 256] 2] in
     result (setTemperatureOffset dev tempOffset w) = Some tt
     /\ issued (setTemperatureOffset dev tempOffset) w
        = [BusWrite SCD30_I2C_ADDRESS payload
             (dev_ack dev (history (wire w)) SCD30_I2C_ADDRESS payload)]
     /\ (echoes dev w SCD30_SET_TEMPERATURE_OFFSET n ->
         result (getTemperatureOffset dev
                   (after (setTemperatureOffset dev tempOffset w))) = n))
  /\ (forall (s : bool) (m : positive) (e : Z),
        product = S754_finite s m e ->
        let q := Z.quot (cond_Zopp s (Z.pos m) * 2 ^ Z.max e 0) (2 ^ Z.max (- e) 0) in
        (0 <= q < 2 ^ 16 -> IEEE.to_uint16 product = Some q)
        /\ (q <= -1 -> result (setTemperatureOffset dev tempOffset w) = None))
  /\ IEEE.to_uint16 (IEEE.mul IEEE.binary32 (IEEE.of_Z IEEE.binary32 5)
                       (IEEE.of_Z IEEE.binary32 100)) = Some 500
  /\ IEEE.to_uint16 (IEEE.mul IEEE.binary32 (IEEE.lit IEEE.binary32 53 2)
                       (IEEE.of_Z IEEE.binary32 100)) = Some 52.
Proof.
  intros product. split; [|split; [|split; reflexivity]].
  - intros n Hn payload.
    assert (setTemperatureOffset dev tempOffset w
            = (Some tt,
               written dev w (command_frame SCD30_SET_TEMPERATURE_OFFSET n))) as Hrun.
    { unfold setTemperatureOffset. fold product. rewrite Hn.
      unfold bind. rewrite sendCommand_run. reflexivity. }
    pose proof (to_uint16_range _ _ Hn) as Hu.
    split; [now rewrite Hrun|split].
    + rewrite (issued_written dev _ _ (command_frame SCD30_SET_TEMPERATURE_OFFSET n))
        by now rewrite Hrun.
      rewrite command_frame_bytes; [reflexivity| |exact Hu].
      unfold is_u16, SCD30_SET_TEMPERATURE_OFFSET; lia.
    + intros He. rewrite Hrun. cbn [after snd].
      unfold getTemperatureOffset. now apply register_echo.
  - intros s m e Hp q. split.
    + intros Hq. rewrite Hp. unfold IEEE.to_uint16. rewrite trunc_quot. fold q.
      destruct (Z.leb_spec 0 q); try lia.
      destruct (Z.ltb_spec q (2 ^ 16)); try lia. reflexivity.
    + intros Hq. unfold setTemperatureOffset. fold product. rewrite Hp.
      unfold IEEE.to_uint16. rewrite trunc_quot. fold q.
      destruct (Z.leb_spec 0 q); try lia. reflexivity.
Qed.

(** X11: whatever the sensor does, [readRegister] returns a value within
    0..65535 and leaves the cached measurement alone.  When only one byte
    comes back, that byte becomes the high byte and the low byte reads as
    0xFF: the result is [256 * b + 255]. *)
Theorem readRegister_range (registerAddress : Z) (w : World) :
  let st :=
    dev_ack dev (history (wire w)) SCD30_I2C_ADDRESS (address_frame registerAddress) in
  let got :=
    firstn 2
      (dev_reply dev
         (history (wire w)
          ++ [BusWrite SCD30_I2C_ADDRESS (address_frame registerAddress) st])
         SCD30_I2C_ADDRESS 2) in
  is_u16 (result (readRegister dev registerAddress w))
  /\ this (after (readRegister dev registerAddress w)) = this w
  /\ (forall b : Z, st = TWI_OK -> got = [b] -> is_u8 b ->
      result (readRegister dev registerAddress w) = 256 * b + 255).
Proof.
  intros st got. split; [|split].
  - rewrite readRegister_run. cbv zeta. destruct (acked _); cbn [result fst].
    + apply register_value_u16.
    + unfold is_u16. lia.
  - apply readRegister_keeps_cache.
  - intros b Hst Hgot Hb. rewrite readRegister_run. cbv zeta. fold st.
    rewrite Hst. cbn [acked result fst]. unfold reply_in, written.
    cbn [wire history]. fold st. change (Z.to_nat 2) with 2%nat.
    fold got. rewrite Hgot, register_value_single, u8_small by exact Hb.
    reflexivity.
Qed.

(** X12: [dataAvailable] answers [true] exactly when the poll of the
    ready-status register is acknowledged and the two bytes 0x00 0x01 come
    back.  Not acknowledged, no byte, a single byte, or any other value:
    [false]. *)
Theorem dataAvailable_ready_iff (w : World) :
  let st := dev_ack dev (history (wire w)) SCD30_I2C_ADDRESS [0x02; 0x02] in
  let got :=
    firstn 2
      (dev_reply dev
         (history (wire w) ++ [BusWrite SCD30_I2C_ADDRESS [0x02; 0x02] st])
         SCD30_I2C_ADDRESS 2) in
  Forall is_u8 got ->
  (result (dataAvailable dev w) = true <-> st = TWI_OK /\ got = [0x00; 0x01]).
Proof.
  intros st got Hbytes. rewrite dataAvailable_run. cbn [result fst].
  rewrite readRegister_run. cbv zeta.
  change (address_frame SCD30_GET_READY_STATUS) with [0x02; 0x02]. fold st.
  unfold reply_in, written. cbn [wire history]. fold st.
  change (Z.to_nat 2) with 2%nat. fold got.
  assert (length got <= 2)%nat as Hlen by apply firstn_le_length.
  destruct st eqn:Est; unfold result; cbn [acked fst];
    try (split; [discriminate|intros [? _]; discriminate]).
  rewrite Z.eqb_eq.
  destruct got as [|m [|l rest]].
  - cbn. split; [discriminate|intros [_ ?]; discriminate].
  - rewrite register_value_single.
    inversion Hbytes as [|? ? Hm _]; subst.
    rewrite u8_small by exact Hm. unfold is_u8 in Hm. change (2 ^ 8) with 256 in Hm.
    split; [intros H; exfalso; lia|intros [_ ?]; discriminate].
  - destruct rest; [|cbn in Hlen; lia].
    rewrite register_value_bytes.
    inversion Hbytes as [|? ? Hm Hrest]; subst.
    inversion Hrest as [|? ? Hl _]; subst.
    rewrite !u8_small by assumption.
    unfold is_u8 in Hm, Hl. change (2 ^ 8) with 256 in Hm, Hl.
    split.
    + intros H. split; [reflexivity|]. f_equal; [lia|f_equal; lia].
    + intros [_ [= -> ->]]. reflexivity.
Qed.

End RegisterAccess.

(** ** Short replies to a measurement read *)

(** Reading past the end of what was received yields -1, that is 0xFF:
    the receive loop behaves as on the reply padded with 0xFF. *)
Lemma decode_from_padded (n : nat) : forall (b : Z) (rx : list Z) (t : temps),
  fst (decode_from n b rx t)
  = fst (decode_from n b (rx ++ repeat 0xFF (n - length rx)) t).
Proof.
  induction n as [|n IH]; intros b rx t; [reflexivity|].
  destruct rx as [|x rest].
  - cbn [decode_from app length Nat.sub repeat].
    change (u8 (-1)) with (u8 0xFF). rewrite (IH _ []).
    cbn [app length]. now rewrite Nat.sub_0_r.
  - cbn [decode_from app length Nat.sub]. apply IH.
Qed.

Lemma decode_frame_cache (f : list Z) :
  length f = 18%nat -> Forall is_u8 f ->
  fst (decode_from 18 0 f (mkTemps 0 0 0))
  = mkTemps (co2 (frame_cache f)) (temperature (frame_cache f))
      (humidity (frame_cache f)).
Proof.
  intros Hlen Hbytes.
  do 18 (destruct f as [|? f]; [discriminate Hlen|]).
  destruct f; [|discriminate Hlen].
  repeat match goal with
         | H : Forall _ (_ :: _) |- _ => inversion H; subst; clear H
         end.
  match goal with
  | |- fst (decode_from 18 0 ?l _) = _ =>
      change (decode_from 18 0 l (mkTemps 0 0 0)) with (measurement_of l)
  end.
  rewrite decode_full_frame
    by (repeat (apply Forall_cons; [assumption|]); apply Forall_nil).
  reflexivity.
Qed.

Lemma nth_padding (got : list Z) (i : nat) :
  (length got <= i < 18)%nat ->
  nth i (got ++ repeat 0xFF (18 - length got)) 0 = 0xFF.
Proof.
  intros Hi. rewrite app_nth2 by lia. apply nth_repeat_lt. lia.
Qed.

Section ShortReply.

Variable dev : Device.

(** X13: when the measurement read is acknowledged and fewer than 18 bytes
    come back (but at least one), [readMeasurement] still returns [true]
    and fills the cache as if the missing bytes were all 0xFF.  With 12
    bytes or fewer the humidity word is 0xFFFFFFFF, which reads as a NaN. *)
Theorem readMeasurement_short_reply (w : World)
  (Hack : dev_ack dev (history (wire w)) SCD30_I2C_ADDRESS [0x03; 0x00] = TWI_OK) :
  let got :=
    firstn 18
      (dev_reply dev
         (history (wire w) ++ [BusWrite SCD30_I2C_ADDRESS [0x03; 0x00] TWI_OK])
         SCD30_I2C_ADDRESS 18) in
  got <> [] -> Forall is_u8 got ->
  result (readMeasurement dev w) = true
  /\ this (after (readMeasurement dev w))
     = frame_cache (got ++ repeat 0xFF (18 - length got))
  /\ ((length got <= 12)%nat ->
      humidity (this (after (readMeasurement dev w))) = 0xFFFFFFFF
      /\ IEEE.b32_of_bits (humidity (this (after (readMeasurement dev w)))) = S754_nan).
Proof.
  intros got Hne Hbytes.
  assert (length got <= 18)%nat as Hlen by apply firstn_le_length.
  assert (readMeasurement dev w
          = (true,
             mkWorld
               (wire (requested dev (written dev w (address_frame SCD30_READ_MEASUREMENT))
                        18 (snd (decode_from 18 0 got (mkTemps 0 0 0)))))
               (frame_cache (got ++ repeat 0xFF (18 - length got))))) as Hrun.
  { rewrite readMeasurement_run. cbv zeta.
    change (address_frame SCD30_READ_MEASUREMENT) with [0x03; 0x00].
    rewrite Hack. cbn [acked]. unfold reply_in at 1, written at 1.
    cbn [wire history]. rewrite Hack. change (Z.to_nat 18) with 18%nat. fold got.
    unfold measurement_of. destruct got as [|x rest] eqn:Egot; [congruence|].
    rewrite <- Egot in *.
    destruct (decode_from 18 0 got (mkTemps 0 0 0)) as [t left] eqn:Ed.
    assert (t = fst (decode_from 18 0 got (mkTemps 0 0 0))) as Ht by now rewrite Ed.
    rewrite decode_from_padded, decode_frame_cache in Ht.
    - rewrite Ht. cbn [snd tempCO2 tempTemperature tempHumidity].
      now destruct (frame_cache _).
    - rewrite length_app, repeat_length. lia.
    - apply Forall_app. split; [exact Hbytes|].
      apply Forall_forall. intros b Hb. apply repeat_spec in Hb. subst b.
      unfold is_u8. lia. }
  rewrite Hrun. cbn [result after fst snd this].
  split; [reflexivity|split; [reflexivity|]].
  intros H12. unfold frame_cache. cbn [humidity].
  rewrite !nth_padding by lia. split; reflexivity.
Qed.

End ShortReply.

(** ** What the driver does on the bus, and to the cache *)

Lemma byte_check (b : Z) : is_u8 b -> (0 <=? b) && (b <? 256) = true.
Proof.
  unfold is_u8. change (2 ^ 8) with 256. intros H.
  apply andb_true_intro. split; [apply Z.leb_le|apply Z.ltb_lt]; lia.
Qed.

Lemma wf_write2 (a b : Z) (st : twi_status) :
  is_u8 a -> is_u8 b ->
  well_formed_event (BusWrite SCD30_I2C_ADDRESS [a; b] st) = true.
Proof.
  intros Ha Hb. unfold well_formed_event. cbn [forallb].
  rewrite (byte_check a Ha), (byte_check b Hb). reflexivity.
Qed.



Lemma wf_address_frame (command : Z) (st : twi_status) :
  well_formed_event (BusWrite SCD30_I2C_ADDRESS (address_frame command) st) = true.
Proof. unfold address_frame. apply wf_write2; apply u8_range. Qed.

Lemma wf_read (dev : Device) (w : World) (quantity : Z) :
  quantity = 2 \/ quantity = 18 ->
  well_formed_event (BusRead SCD30_I2C_ADDRESS quantity (reply_in dev w quantity))
  = true.
Proof.
  intros Hq. unfold well_formed_event. rewrite Z.eqb_refl. cbn [andb].
  assert (Z.of_nat (length (reply_in dev w quantity)) <= quantity) as Hlen.
  { unfold reply_in. pose proof (firstn_le_length (Z.to_nat quantity)
      (dev_reply dev (history (wire w)) SCD30_I2C_ADDRESS quantity)). lia. }
  apply Z.leb_le in Hlen. rewrite Hlen.
  destruct Hq as [-> | ->]; reflexivity.
Qed.

Lemma disciplined_ret {A : Type} (a : A) : disciplined (ret a).
Proof. intros w. exists []. split; [now rewrite app_nil_r|reflexivity]. Qed.

Lemma disciplined_bind {A B : Type} (c : M A) (k : A -> M B) :
  disciplined c -> (forall a : A, disciplined (k a)) -> disciplined (bind c k).
Proof.
  intros Hc Hk w. unfold bind, after. destruct (Hc w) as (l1 & H1 & W1).
  unfold after in H1. destruct (c w) as [a w1]. cbn [snd] in H1.
  destruct (Hk a w1) as (l2 & H2 & W2). unfold after in H2.
  exists (l1 ++ l2). split.
  - rewrite H2, H1. now rewrite app_assoc.
  - rewrite forallb_app. now rewrite W1, W2.
Qed.



(** What has been appended is what [issued] shows. *)
Lemma issued_extends {A : Type} (c : M A) (w : World) (l : list bus_event) :
  history (wire (after (c w))) = history (wire w) ++ l -> issued c w = l.
Proof. intros H. unfold issued. rewrite H. apply skipn_app_exact. Qed.

Section Discipline.

Variable dev : Device.
Variable double : IEEE.format.



Lemma disciplined_readRegister (a : Z) : disciplined (readRegister dev a).
Proof.
  intros w. rewrite readRegister_run. cbv zeta. destruct (acked _).
  - eexists. split.
    + cbn [after snd requested written wire history]. rewrite <- app_assoc. reflexivity.
    + cbn [app forallb]. rewrite wf_address_frame, wf_read by (left; reflexivity).
      reflexivity.
  - eexists. split; [reflexivity|]. cbn [forallb]. now rewrite wf_address_frame.
Qed.

Lemma disciplined_readMeasurement : disciplined (readMeasurement dev).
Proof.
  intros w. rewrite readMeasurement_run. cbv zeta. destruct (acked _).
  - destruct (measurement_of _) as [t left]. eexists. split.
    + cbn [after snd requested written wire history]. rewrite <- app_assoc. reflexivity.
    + cbn [app forallb]. rewrite wf_address_frame, wf_read by (right; reflexivity).
      reflexivity.
  - eexists. split; [reflexivity|]. cbn [forallb]. now rewrite wf_address_frame.
Qed.










End Discipline.

(** ** Accessors end to end *)

Lemma be32_field_bytes (x : Z) :
  is_u32 x ->
  Forall is_u8 [x / 2 ^ 24; (x / 2 ^ 16) mod 256; (x / 2 ^ 8) mod 256; x mod 256]
  /\ be32 (x / 2 ^ 24) ((x / 2 ^ 16) mod 256) ((x / 2 ^ 8) mod 256) (x mod 256) = x.
Proof.
  unfold is_u32, is_u8, be32.
  change (2 ^ 32) with 4294967296. change (2 ^ 24) with 16777216.
  change (2 ^ 16) with 65536. change (2 ^ 8) with 256.
  intros Hx. split.
  - repeat (apply Forall_cons; [Z.div_mod_to_equations; lia|]). apply Forall_nil.
  - Z.div_mod_to_equations. lia.
Qed.

Section Traffic.

Variable dev : Device.
Variable double : IEEE.format.

Lemma readMeasurement_issued (w : World) :
  let st := dev_ack dev (history (wire w)) SCD30_I2C_ADDRESS
              (address_frame SCD30_READ_MEASUREMENT) in
  issued (readMeasurement dev) w =
  BusWrite SCD30_I2C_ADDRESS (address_frame SCD30_READ_MEASUREMENT) st
  :: (if acked st
      then [BusRead SCD30_I2C_ADDRESS 18
              (reply_in dev (written dev w (address_frame SCD30_READ_MEASUREMENT)) 18)]
      else []).
Proof.
  intros st. unfold issued. rewrite readMeasurement_run. cbv zeta. fold st.
  destruct (acked st).
  - destruct (measurement_of _) as [t left].
    cbn [after snd requested written wire history].
    rewrite <- app_assoc. apply skipn_app_exact.
  - cbn [after snd written wire history]. apply skipn_app_exact.
Qed.

Lemma issued_appended {A : Type} (c : M A) (w : World) :
  disciplined c ->
  history (wire (after (c w))) = history (wire w) ++ issued c w.
Proof.
  intros Hc. destruct (Hc w) as (l & Hl & _).
  now rewrite (issued_extends c w l Hl).
Qed.

Lemma issued_accessor {A : Type} (c : M A) (w : World) :
  after (c w) = settled dev w ->
  issued c w
  = issued (dataAvailable dev) w
    ++ (if result (dataAvailable dev w)
        then issued (readMeasurement dev) (after (dataAvailable dev w))
        else []).
Proof.
  intros Hc. apply issued_extends. rewrite Hc. unfold settled.
  assert (disciplined (dataAvailable dev)) as Hpoll
    by (unfold dataAvailable; apply disciplined_bind;
        [apply disciplined_readRegister
        |intros r; destruct (r =? 1); apply disciplined_ret]).
  destruct (result (dataAvailable dev w)).
  - rewrite (issued_appended _ _ (disciplined_readMeasurement dev)).
    rewrite (issued_appended _ _ Hpoll). now rewrite app_assoc.
  - rewrite (issued_appended _ _ Hpoll). now rewrite app_nil_r.
Qed.

(** X16: every accessor puts the same events on the bus: those of the
    ready-status poll, followed by those of [readMeasurement] when the poll
    said ready, and nothing else.  The poll is one or two events, the
    measurement read one or two; a poll that says ready always has both the
    write and the read, so an accessor call costs between one and four bus
    transactions. *)
Theorem accessor_bus_traffic (w : World) :
  let poll := issued (dataAvailable dev) w in
  let read := issued (readMeasurement dev) (after (dataAvailable dev w)) in
  let traffic := poll ++ (if result (dataAvailable dev w) then read else []) in
  issued (getCO2 dev) w = traffic
  /\ issued (getHumidity dev) w = traffic
  /\ issued (getTemperatureC dev) w = traffic
  /\ issued (getTemperatureF dev double) w = traffic
  /\ issued (getTemperatureK dev double) w = traffic
  /\ (1 <= length poll <= 2)%nat
  /\ (1 <= length read <= 2)%nat
  /\ length traffic
     = (if result (dataAvailable dev w) then 2 + length read else length poll)%nat.
Proof.
  intros poll read traffic.
  assert (forall (A : Type) (view : SCD30 -> A),
            issued (ready <- dataAvailable dev ;;
                    (if ready then readMeasurement dev ;; ret tt else ret tt) ;;
                    s <- get_this ;;
                    ret (view s)) w = traffic) as Hall.
  { intros A view. apply issued_accessor. now rewrite accessor_run. }
  unfold getCO2, getHumidity, getTemperatureC, getTemperatureF, getTemperatureK.
  do 5 (split; [apply Hall|]).
  assert (issued (dataAvailable dev) w
          = issued (readRegister dev SCD30_GET_READY_STATUS) w) as Hpoll
    by (unfold issued; now rewrite dataAvailable_run).
  pose proof (readRegister_issued dev SCD30_GET_READY_STATUS w) as Hreg.
  pose proof (readMeasurement_issued (after (dataAvailable dev w))) as Hread.
  cbv zeta in Hreg, Hread.
  assert (result (dataAvailable dev w) = true -> length poll = 2%nat) as Hready.
  { unfold poll. rewrite Hpoll, Hreg, dataAvailable_run, readRegister_run.
    cbv zeta. destruct (acked _); [reflexivity|].
    cbn [result fst]. discriminate. }
  split; [|split].
  - unfold poll. rewrite Hpoll, Hreg.
    match goal with
    | |- context [if acked ?s then _ else _] => destruct (acked s)
    end; cbn [length]; lia.
  - unfold read. rewrite Hread.
    match goal with
    | |- context [if acked ?s then _ else _] => destruct (acked s)
    end; cbn [length]; lia.
  - unfold traffic. rewrite length_app.
    destruct (result (dataAvailable dev w)); cbn [length]; [|lia].
    now rewrite Hready.
Qed.

Lemma dataAvailable_served (w : World) (frame : list Z) :
  serves dev w frame ->
  dataAvailable dev w
  = (true,
     mkWorld
       (mkTwoWire SCD30_I2C_ADDRESS [] []
          (history (wire w)
           ++ [BusWrite SCD30_I2C_ADDRESS [0x02; 0x02] TWI_OK;
               BusRead SCD30_I2C_ADDRESS 2 [0x00; 0x01]]))
       (this w)).
Proof.
  intros (Hack1 & Hreply1 & _).
  assert (reply_in dev (written dev w [0x02; 0x02]) 2 = [0x00; 0x01]) as Hr
    by (unfold reply_in, written; cbn [wire history]; rewrite Hack1; exact Hreply1).
  rewrite dataAvailable_run, readRegister_run. cbv zeta.
  change (address_frame SCD30_GET_READY_STATUS) with [0x02; 0x02].
  rewrite Hack1. cbn [acked result after fst snd].
  unfold requested. rewrite Hr. unfold written.
  cbn [wire history txAddress txBuffer this skipn]. rewrite Hack1.
  rewrite <- app_assoc. reflexivity.
Qed.

Lemma settled_served (w : World) (frame : list Z) :
  serves dev w frame ->
  this (settled dev w)
  = (let (t, _) := measurement_of frame in
     mkSCD30 (tempCO2 t) (tempTemperature t) (tempHumidity t)).
Proof.
  intros Hdev. pose proof (dataAvailable_served w frame Hdev) as Hpoll.
  destruct Hdev as (_ & _ & Hack2 & Hframe).
  unfold settled. rewrite Hpoll. cbn [result after fst snd].
  rewrite readMeasurement_run. cbv zeta.
  change (address_frame SCD30_READ_MEASUREMENT) with [0x03; 0x00].
  cbn [wire history]. rewrite Hack2. cbn [acked].
  unfold reply_in, written. cbn [wire history]. rewrite Hack2.
  change (Z.to_nat 18) with 18%nat. rewrite Hframe.
  now destruct (measurement_of frame).
Qed.

(** X17: when the device reports new data to the poll and then answers
    the measurement read with a frame carrying the three 32-bit words most
    significant byte first, each accessor returns the value of its word:
    [getCO2] the truncation of the first, [getTemperatureC] the second,
    [getHumidity] the third, [getTemperatureF] and [getTemperatureK] the
    conversions of the second.  The six bytes at the checksum positions
    are arbitrary: the driver never checks what it receives. *)
Theorem accessors_return_served_words (xc xt xh k1 k2 k3 k4 k5 k6 : Z) (w : World)
  (Hc : is_u32 xc) (Ht : is_u32 xt) (Hh : is_u32 xh)
  (Hdev : serves dev w
            (field_bytes xc k1 k2 ++ field_bytes xt k3 k4 ++ field_bytes xh k5 k6)) :
  getCO2 dev w = (IEEE.to_uint16 (IEEE.b32_of_bits xc), settled dev w)
  /\ getTemperatureC dev w = (IEEE.b32_of_bits xt, settled dev w)
  /\ getHumidity dev w = (IEEE.b32_of_bits xh, settled dev w)
  /\ getTemperatureF dev double w
     = (fahrenheit double (IEEE.b32_of_bits xt), settled dev w)
  /\ getTemperatureK dev double w
     = (kelvin double (IEEE.b32_of_bits xt), settled dev w)
  /\ this (settled dev w) = mkSCD30 xc xt xh.
Proof.
  assert (this (settled dev w) = mkSCD30 xc xt xh) as Hcache.
  { rewrite (settled_served w _ Hdev). unfold field_bytes. cbn [app].
    destruct (be32_field_bytes xc Hc) as (Bc & Ec).
    destruct (be32_field_bytes xt Ht) as (Bt & Et).
    destruct (be32_field_bytes xh Hh) as (Bh & Eh).
    rewrite decode_full_frame.
    - cbn [tempCO2 tempTemperature tempHumidity]. now rewrite Ec, Et, Eh.
    - repeat match goal with
             | H : Forall _ (_ :: _) |- _ => inversion H; subst; clear H
             end.
      repeat (apply Forall_cons; [assumption|]). apply Forall_nil. }
  unfold getCO2, getTemperatureC, getHumidity, getTemperatureF, getTemperatureK.
  rewrite !accessor_run, Hcache. repeat split.
Qed.

End Traffic.

(** ** The further properties at concrete devices *)


(** 0xBE 0xEF has checksum 0x92; with the lowest bit of the first byte
    flipped the checksum no longer fits. *)
Lemma computeCRC8_detects_three_bit_errors_witness :
  computeCRC8 [0xBE; 0xEF] 2 = 0x92 /\ computeCRC8 [0xBF; 0xEF] 2 <> 0x92.
Proof.
  split; [reflexivity|].
  refine (computeCRC8_detects_three_bit_errors 0xBE 0xEF 0xBF 0xEF 0x92 _ _ _ _ _ _);
    try (unfold is_u8; lia).
  vm_compute. split; discriminate.
Defined.

(** Setting the measurement interval to 2 seconds. *)
Lemma sendCommand_frame_witness :
  sendCommand mute_device 0x4600 2 power_on
  = (true,
     mkWorld
       (mkTwoWire 0x61 [] [] [BusWrite 0x61 [0x46; 0x00; 0x00; 0x02; 0xE3] TWI_OK])
       SCD30_new).
Proof.
  refine (proj1 (sendCommand_frame mute_device 0x4600 2 power_on _ _));
    unfold is_u16; lia.
Defined.

(** After a soft reset the accessor still answers 450 from the cache. *)
Lemma commands_without_argument_witness :
  result (dataAvailable mute_device (after (softReset mute_device warm_world))) = false
  /\ result (getCO2 mute_device (after (softReset mute_device warm_world))) = Some 450.
Proof.
  split; [reflexivity|].
  refine (proj1 (proj2 (proj2 (proj2
            (commands_without_argument mute_device 0xD304 warm_world _))) eq_refl)).
  unfold is_u16; lia.
Defined.

(** An interval of 65535 seconds is sent as it is. *)
Lemma setters_forward_any_argument_witness :
  issued (setMeasurementInterval mute_device 65535) power_on
  = [BusWrite 0x61 [0x46; 0x00; 0xFF; 0xFF; 0xAC] TWI_OK].
Proof.
  refine (proj1 (setters_forward_any_argument mute_device 65535 power_on _)).
  unfold is_u16; lia.
Defined.

(** 1013 mbar passes the guard; 5000 does not, and [beginMeasuring] would
    have sent it. *)
Lemma setAmbientPressure_is_guarded_beginMeasuring_witness :
  after (setAmbientPressure mute_device 1013 power_on)
  = after (beginMeasuring mute_device 1013 power_on)
  /\ issued (beginMeasuring mute_device 5000) power_on
     <> issued (setAmbientPressure mute_device 5000) power_on.
Proof.
  split.
  - refine (proj1 (setAmbientPressure_is_guarded_beginMeasuring mute_device 1013
                     power_on) _).
    lia.
  - refine (proj2 (proj2 (setAmbientPressure_is_guarded_beginMeasuring mute_device
                            5000 power_on)) _ _ _);
      [lia|unfold is_u16; lia|discriminate].
Defined.

(** A sensor with registers hands the interval 2 back. *)
Lemma configuration_round_trip_witness :
  echoes register_device power_on SCD30_SET_MEASUREMENT_INTERVAL 2
  /\ result (getMeasurementInterval register_device
               (after (setMeasurementInterval register_device 2 power_on))) = 2.
Proof.
  assert (echoes register_device power_on SCD30_SET_MEASUREMENT_INTERVAL 2) as H
    by (split; reflexivity).
  split; [exact H|].
  refine (proj1 (configuration_round_trip register_device 2 power_on _) H).
  unfold is_u16; lia.
Defined.

Lemma automatic_self_calibration_round_trip_witness :
  echoes register_device power_on SCD30_SET_AUTOMATIC_SELFCALIBRATION 1
  /\ result (getAutomaticSelfCalibration register_device
               (after (enableAutomaticSelfCalibration register_device power_on)))
     = true.
Proof.
  assert (echoes register_device power_on SCD30_SET_AUTOMATIC_SELFCALIBRATION 1) as H
    by (split; reflexivity).
  split; [exact H|].
  exact (proj1 (proj2 (proj2
           (automatic_self_calibration_round_trip register_device power_on))) H).
Defined.

(** An offset of 5.0 degrees is written and read back as 500 ticks. *)
Lemma setTemperatureOffset_ticks_witness :
  IEEE.to_uint16
    (IEEE.mul IEEE.binary32 (IEEE.of_Z IEEE.binary32 5) (IEEE.of_Z IEEE.binary32 100))
  = Some 500
  /\ echoes register_device power_on SCD30_SET_TEMPERATURE_OFFSET 500
  /\ result (getTemperatureOffset register_device
               (after (setTemperatureOffset register_device
                         (IEEE.of_Z IEEE.binary32 5) power_on))) = 500.
Proof.
  assert (echoes register_device power_on SCD30_SET_TEMPERATURE_OFFSET 500) as H
    by (split; reflexivity).
  split; [reflexivity|]. split; [exact H|].
  exact (proj2 (proj2
           (proj1 (setTemperatureOffset_ticks register_device
                     (IEEE.of_Z IEEE.binary32 5) power_on)
              500 eq_refl)) H).
Defined.

(** A single byte 0x12 reads as 0x12FF. *)
Lemma readRegister_range_witness :
  result (readRegister (terse_device 0x12) SCD30_GET_READY_STATUS power_on)
  = 256 * 0x12 + 255.
Proof.
  refine (proj2 (proj2 (readRegister_range (terse_device 0x12)
                          SCD30_GET_READY_STATUS power_on))
            0x12 eq_refl eq_refl _).
  unfold is_u8; lia.
Defined.

(** The bytes 0x00 0x01 mean ready. *)
Lemma dataAvailable_ready_iff_witness :
  result (dataAvailable (scripted_device 1 []) power_on) = true.
Proof.
  refine (proj2 (dataAvailable_ready_iff (scripted_device 1 []) power_on _)
            (conj eq_refl eq_refl)).
  change (Forall is_u8 [0x00; 0x01]).
  repeat (apply Forall_cons; [unfold is_u8; lia|]). apply Forall_nil.
Defined.

(** One byte 0x41 instead of eighteen: the rest reads as 0xFF. *)
Lemma readMeasurement_short_reply_witness :
  result (readMeasurement (terse_device 0x41) power_on) = true
  /\ this (after (readMeasurement (terse_device 0x41) power_on))
     = mkSCD30 0x41FFFFFF 0xFFFFFFFF 0xFFFFFFFF
  /\ IEEE.b32_of_bits
       (humidity (this (after (readMeasurement (terse_device 0x41) power_on))))
     = S754_nan.
Proof.
  assert (Forall is_u8 [0x41]) as Hb
    by (apply Forall_cons; [unfold is_u8; lia|apply Forall_nil]).
  pose proof (readMeasurement_short_reply (terse_device 0x41) power_on eq_refl) as H.
  cbv zeta in H. specialize (H ltac:(discriminate) Hb).
  destruct H as (H1 & H2 & H3).
  split; [exact H1|]. split; [exact H2|].
  exact (proj2 (H3 ltac:(cbn; lia))).
Defined.

(** The sensor reports new data and serves 450.75 ppm, 20 degrees and
    50 %RH. *)
Lemma accessors_return_served_words_witness :
  result (getCO2 (scripted_device 1 frame_450_75) power_on) = Some 450
  /\ result (getTemperatureC (scripted_device 1 frame_450_75) power_on)
     = IEEE.of_Z IEEE.binary32 20
  /\ result (getHumidity (scripted_device 1 frame_450_75) power_on)
     = IEEE.of_Z IEEE.binary32 50.
Proof.
  assert (serves (scripted_device 1 frame_450_75) power_on
            (field_bytes 0x43E16000 0x31 0xB4 ++ field_bytes 0x41A00000 0x2A 0x81
             ++ field_bytes 0x42480000 0xB7 0x81)) as Hdev
    by (repeat split; reflexivity).
  pose proof (accessors_return_served_words (scripted_device 1 frame_450_75)
                IEEE.binary64 0x43E16000 0x41A00000 0x42480000
                0x31 0xB4 0x2A 0x81 0xB7 0x81 power_on) as H.
  assert (is_u32 0x43E16000) as Hc by (unfold is_u32; lia).
  assert (is_u32 0x41A00000) as Ht by (unfold is_u32; lia).
  assert (is_u32 0x42480000) as Hh by (unfold is_u32; lia).
  specialize (H Hc Ht Hh Hdev).
  destruct H as (H1 & H2 & H3 & _).
  split; [exact (f_equal fst H1)|]. split; [exact (f_equal fst H2)|].
  exact (f_equal fst H3).
Defined.
